(** * wik: a file-backed wiki (Go)

    A shallow embedding of the wiki's page store ([Wiki.Local], [Create],
    [Edit], [Remove], [GetDir], [GetPage], [Commit], [ExecIn]) and of the
    breadcrumb builder of the HTTP front end ([Breadcrumbs]), together
    with the parts of Go's standard library they call, and of the
    handlers of the front end ([ShowPage], [ShowEdit], [RemovePage],
    [CreatePage], [EditPage]) with [ProcessMarkdown] and [CrumbsOf].

    Go strings are byte sequences and are embedded as [string]; a
    [[]byte] is a [list byte].  A function returning [(T, error)] is
    embedded as a pair whose second component is [option error], [None]
    standing for [nil]. *)

From Stdlib Require Import Strings.Ascii Strings.String Strings.Byte NArith.
From stdpp Require Import base option list strings sorting gmap fin_maps.

(** ** Go's [strings] package *)

Module strings.

(** [strings.HasPrefix(s, prefix)]:
    [len(s) >= len(prefix) && s[0:len(prefix)] == prefix]. *)
Fixpoint HasPrefix (s prefix : string) {struct prefix} : bool :=
  match prefix, s with
  | EmptyString, _ => true
  | String _ _, EmptyString => false
  | String c prefix', String d s' =>
      if Ascii.eqb c d then HasPrefix s' prefix' else false
  end.

(** [strings.Join(elems, sep)]. *)
Fixpoint Join (elems : list string) (sep : string) : string :=
  match elems with
  | [] => EmptyString
  | [e] => e
  | e :: rest => e +:+ sep +:+ Join rest sep
  end.

(** The scanning loop of [strings.Split] for a non-empty separator:
    [cur] holds (reversed) the bytes of the piece being read, [skip]
    counts the bytes of a separator occurrence still to be stepped
    over. The leftmost occurrence is cut first and occurrences do not
    overlap, as with [Index] in [genSplit]. *)
Fixpoint split_loop (sep : string) (s : string) (skip : nat)
    (cur : list ascii) : list string :=
  match s with
  | EmptyString => [string_of_list_ascii (rev cur)]
  | String c s' =>
      match skip with
      | S k => split_loop sep s' k cur
      | O =>
          if HasPrefix s sep
          then string_of_list_ascii (rev cur)
                 :: split_loop sep s' (String.length sep - 1) []
          else split_loop sep s' 0 (c :: cur)
      end
  end.

(** [explode]: one piece per byte (the program's inputs are byte
    strings; Go cuts at UTF-8 sequences, which coincide on ASCII). *)
Fixpoint explode (s : string) : list string :=
  match s with
  | EmptyString => []
  | String c s' => String c EmptyString :: explode s'
  end.

(** [strings.Split(s, sep)]. *)
Definition Split (s sep : string) : list string :=
  match sep with
  | EmptyString => explode s
  | _ => split_loop sep s 0 []
  end.

End strings.

(** ** Go's [path/filepath] package (Unix) *)

Module filepath.

Definition Separator : ascii := "/"%char.

Definition IsPathSeparator (c : ascii) : bool := Ascii.eqb c Separator.

(** [true] when the unread input is exhausted or starts with a
    separator: the test [r+k == n || path[r+k] == '/'] of [Clean]. *)
Definition at_boundary (rest : list ascii) : bool :=
  match rest with
  | [] => true
  | c :: _ => IsPathSeparator c
  end.

(** The [..] step of [Clean] when it can backtrack:
    [out.w--; for out.w > dotdot && out.index(out.w) != '/' { out.w-- }].
    The buffer [out.buf[:out.w]] is kept reversed, last byte first. *)
Fixpoint backtrack (out : list ascii) (dotdot : nat) : list ascii :=
  match out with
  | [] => []
  | c :: out' =>
      if (length out' <=? dotdot)%nat || IsPathSeparator c
      then out'
      else backtrack out' dotdot
  end.

(** The main loop of [Clean]. [path] is the unread input [path[r:]],
    [out] the reversed output buffer, [dotdot] the index where [..]
    must stop. [mid] is set while the inner loop
    [for ; r < n && path[r] != '/'; r++ { out.append(path[r]) }]
    is copying a path element. *)
Fixpoint clean_loop (rooted : bool) (path out : list ascii)
    (dotdot : nat) (mid : bool) : list ascii :=
  match path with
  | [] => out
  | c :: rest =>
      let element :=
        (* real path element: add slash if needed, then copy *)
        let out1 :=
          if (rooted && negb (length out =? 1)%nat)
             || (negb rooted && negb (length out =? 0)%nat)
          then Separator :: out else out in
        clean_loop rooted rest (c :: out1) dotdot true in
      if mid then
        if IsPathSeparator c then clean_loop rooted rest out dotdot false
        else clean_loop rooted rest (c :: out) dotdot true
      else if IsPathSeparator c then
        (* empty path element *)
        clean_loop rooted rest out dotdot false
      else if Ascii.eqb c "."%char && at_boundary rest then
        (* . element *)
        clean_loop rooted rest out dotdot false
      else if Ascii.eqb c "."%char then
        match rest with
        | d :: rest2 =>
            if Ascii.eqb d "."%char && at_boundary rest2 then
              (* .. element: remove to last / *)
              if (dotdot <? length out)%nat then
                clean_loop rooted rest2 (backtrack out dotdot) dotdot false
              else if negb rooted then
                let out1 :=
                  if (0 <? length out)%nat then Separator :: out else out in
                let out2 := "."%char :: "."%char :: out1 in
                clean_loop rooted rest2 out2 (length out2) false
              else clean_loop rooted rest2 out dotdot false
            else element
        | [] => element
        end
      else element
  end.

(** [filepath.Clean(path)]. *)
Definition Clean (path : string) : string :=
  match list_ascii_of_string path with
  | [] => "."
  | c :: rest =>
      let rooted := IsPathSeparator c in
      let out :=
        if rooted then clean_loop true rest [Separator] 1 false
        else clean_loop false (c :: rest) [] 0 false in
      match out with
      | [] => "."
      | _ => string_of_list_ascii (rev out)
      end
  end.

(** [filepath.Join(elem...)]: the elements from the first non-empty
    one on, joined with the separator and cleaned. *)
Fixpoint Join (elem : list string) : string :=
  match elem with
  | [] => ""
  | EmptyString :: rest => Join rest
  | _ :: _ => Clean (strings.Join elem "/")
  end.

(** [path[:i+1]] for [i] the index of the last separator of [path]
    ([-1] when there is none): computed on the reversed path. *)
Fixpoint drop_last_element (rpath : list ascii) : list ascii :=
  match rpath with
  | [] => []
  | c :: rest => if IsPathSeparator c then rpath else drop_last_element rest
  end.

(** [filepath.Dir(path)]. *)
Definition Dir (path : string) : string :=
  Clean (string_of_list_ascii
           (rev (drop_last_element (rev (list_ascii_of_string path))))).

(** [filepath.Base(path)]: the last element of [path], trailing
    separators removed first. *)
Fixpoint strip_separators (rpath : list ascii) : list ascii :=
  match rpath with
  | [] => []
  | c :: rest => if IsPathSeparator c then strip_separators rest else rpath
  end.

Fixpoint last_element (rpath : list ascii) : list ascii :=
  match rpath with
  | [] => []
  | c :: rest => if IsPathSeparator c then [] else c :: last_element rest
  end.

Definition Base (path : string) : string :=
  match path with
  | EmptyString => "."
  | _ =>
      let r := strip_separators (rev (list_ascii_of_string path)) in
      match rev (last_element r) with
      | [] => "/"
      | e => string_of_list_ascii e
      end
  end.

End filepath.

Arguments filepath.Clean : simpl never.
Arguments filepath.Join : simpl never.
Arguments filepath.Dir : simpl never.

(** ** Errors and the operating-system interface *)

(** [syscall.Errno] values the file operations report. *)
Inductive Errno := ENOENT | EEXIST | ENOTDIR | EISDIR | ENOTEMPTY | EACCES.

(** Go's [error] values met by the program: [errors.New(s)],
    [*os.PathError], [*exec.ExitError] and [*exec.Error]. *)
Inductive error :=
| errorString (s : string)
| PathError (Op Path : string) (Err : Errno)
| ExitError (code : N)
| ExecError (Name : string).

Module os.

(** The two methods of [os.FileInfo] the program calls. *)
Record FileInfo := mkFileInfo { Name : string; IsDir : bool }.

(** [os.IsNotExist(err)]. *)
Definition IsNotExist (err : error) : bool :=
  match err with
  | PathError _ _ ENOENT => true
  | _ => false
  end.

End os.

(** The calls the page store makes into [os], [io/ioutil] and [os/exec],
    over a state [World] of the machine (file system and repository).
    Calls that modify the machine return the new state; reads do not
    change it. [cmd_Run dir name args] is [cmd.Run()] for
    [cmd := exec.Command(name, args...)] with [cmd.Dir = dir]. *)
Class OS := {
  World : Type;
  os_MkdirAll : string -> N -> World -> option error * World;
  ioutil_WriteFile : string -> list byte -> N -> World -> option error * World;
  os_Remove : string -> World -> option error * World;
  ioutil_ReadFile : string -> World -> list byte * option error;
  ioutil_ReadDir : string -> World -> list os.FileInfo * option error;
  cmd_Run : string -> string -> list string -> World -> option error * World
}.

(** State passing for the mutating operations. *)
Definition M `{OS} (A : Type) : Type := World -> A * World.

Definition ret `{OS} {A : Type} (a : A) : M A := fun st => (a, st).

Definition bind `{OS} {A B : Type} (m : M A) (k : A -> M B) : M B :=
  fun st => let '(a, st') := m st in k a st'.

Notation "'do' x <- m ; k" := (bind m (fun x => k))
  (at level 10, x name, m at level 100, k at level 200).

(** ** The page store *)

Module Wiki.
Record t := mk { Path : string }.
End Wiki.

Module Page.
(** [Body] is [template.HTML], a string type. *)
Record t := mk { Path : string; URI : string; Raw : string; Body : string }.

(** The zero value [Page{}]. *)
Definition zero : t := mk "" "" "" "".
End Page.

Module PageInfo.
Record t := mk { URI : string; Name : string; IsDir : bool }.
End PageInfo.

(** The permission arguments [0777] and [0600] (octal). *)
Notation "'0o777'" := 511%N (only parsing).
Notation "'0o600'" := 384%N (only parsing).

Definition err_outside : error := errorString "path outside of repo".

(** [Wiki.Local]. *)
Definition Local (w : Wiki.t) (path : string) : string * option error :=
  let p := filepath.Clean (filepath.Join [Wiki.Path w; path]) in
  if strings.HasPrefix p (Wiki.Path w)
     && negb (strings.HasPrefix p (filepath.Join [Wiki.Path w; ".git"]))
  then (p, None)
  else ("", Some err_outside).

Section PageStore.

Context `{OS}.

(** [Wiki.ExecIn]. *)
Definition ExecIn (w : Wiki.t) (command : string) (args : list string)
  : M (option error) :=
  cmd_Run (Wiki.Path w) command args.

(** [Wiki.Initialize]. *)
Definition Initialize (w : Wiki.t) : M (option error) :=
  ExecIn w "git" ["init"].

(** [Wiki.Commit]: both results of [ExecIn] are dropped. *)
Definition Commit (w : Wiki.t) (path message : string) : M (option error) :=
  do _ <- ExecIn w "git" ["add"; "--all"; path];
  do _ <- ExecIn w "git" ["commit"; "-m"; message];
  ret None.

(** [Wiki.Create]. The variable [err] is assigned by [MkdirAll] and
    again by [WriteFile] before it is read. *)
Definition Create (w : Wiki.t) (path : string) : M (option error) :=
  let '(p, err) := Local w path in
  match err with
  | Some _ => ret err
  | None =>
      do err <- os_MkdirAll (filepath.Dir p) 0o777;
      do err <- ioutil_WriteFile p (list_byte_of_string ("# " +:+ path)) 0o600;
      match err with
      | Some _ => ret err
      | None => Commit w p ("Created " +:+ path)
      end
  end.

(** [Wiki.Edit]. *)
Definition Edit (w : Wiki.t) (path : string) (contents : list byte)
  : M (option error) :=
  let '(p, err) := Local w path in
  match err with
  | Some _ => ret err
  | None =>
      do err <- ioutil_WriteFile p contents 0o600;
      match err with
      | Some _ => ret err
      | None => Commit w p ("Edit to " +:+ path)
      end
  end.

(** [Wiki.Remove]. *)
Definition Remove (w : Wiki.t) (path : string) : M (option error) :=
  let '(p, err) := Local w path in
  match err with
  | Some _ => ret err
  | None =>
      do err <- os_Remove p;
      match err with
      | Some _ => ret err
      | None => Commit w p ("Deleted " +:+ path)
      end
  end.

(** The body of the loop of [GetDir] for one entry [f] of [files]. *)
Definition GetDir_step (path : string) (res : list PageInfo.t)
    (f : os.FileInfo) : list PageInfo.t :=
  let n := os.Name f in
  if negb (strings.HasPrefix n ".")
  then res ++ [PageInfo.mk (filepath.Join [path; n]) n (os.IsDir f)]
  else res.

(** [Wiki.GetDir]; the [nil] slice is the empty list. *)
Definition GetDir (w : Wiki.t) (path : string) (st : World)
  : list PageInfo.t * option error :=
  let '(p, err) := Local w path in
  match err with
  | Some _ => ([], err)
  | None =>
      let '(files, err) := ioutil_ReadDir p st in
      match err with
      | Some _ => ([], err)
      | None => (fold_left (GetDir_step path) files [], None)
      end
  end.

(** [Wiki.GetPage]; [string(body)] is [string_of_list_byte]. *)
Definition GetPage (w : Wiki.t) (path : string) (st : World)
  : Page.t * option error :=
  let '(p, err) := Local w path in
  match err with
  | Some _ => (Page.zero, err)
  | None =>
      let '(body, err) := ioutil_ReadFile p st in
      match err with
      | Some _ => (Page.zero, err)
      | None =>
          (Page.mk p (filepath.Clean path) (string_of_list_byte body) "",
           None)
      end
  end.

End PageStore.

(** ** Breadcrumbs (server.go) *)

Module Crumb.
Record t := mk { Name : string; URI : string }.
End Crumb.

(** The body of the loop of [Breadcrumbs] at index [ix]. *)
Definition Breadcrumbs_step (split : list string) (res : list Crumb.t)
    (ix : nat) : list Crumb.t :=
  let s := nth ix split "" in
  if negb (String.eqb s "")
  then res ++ [Crumb.mk s (strings.Join (take (ix + 1) split) "/")]
  else res.

(** [Breadcrumbs]: the loop ranges over the indices of
    [split[:len(split)-1]]. *)
Definition Breadcrumbs (path : string) : list Crumb.t :=
  let split := strings.Split path "/" in
  let res := [Crumb.mk "home" "/"] in
  fold_left (Breadcrumbs_step split) (seq 0 (length split - 1)) res.

(** ** What the page store assumes of the machine

    A written file reads back as written; a removed path reads as
    missing; a missing path cannot be removed and a readable file can;
    and a subprocess run in directory [dir] leaves every file outside
    the spelling [dir/.git...] as it was. *)
Class OSLaws `{OS} : Prop := {
  ReadFile_WriteFile (p : string) (data : list byte) (perm : N)
      (st st' : World) :
    ioutil_WriteFile p data perm st = (None, st') ->
    ioutil_ReadFile p st' = (data, None);
  ReadFile_Remove (p : string) (st st' : World) :
    os_Remove p st = (None, st') ->
    exists e, ioutil_ReadFile p st' = ([], Some e) /\ os.IsNotExist e = true;
  Remove_missing (p : string) (st : World) (body : list byte) (e : error) :
    ioutil_ReadFile p st = (body, Some e) -> os.IsNotExist e = true ->
    exists e', os_Remove p st = (Some e', st) /\ os.IsNotExist e' = true;
  Remove_file (p : string) (st : World) (body : list byte) :
    ioutil_ReadFile p st = (body, None) ->
    exists st', os_Remove p st = (None, st');
  ReadFile_Run (dir name : string) (args : list string) (st : World)
      (p : string) :
    strings.HasPrefix p (filepath.Join [dir; ".git"]) = false ->
    ioutil_ReadFile p (cmd_Run dir name args st).2 = ioutil_ReadFile p st
}.

(** ** An in-memory machine

    A file system as a finite map from path spellings to nodes, and a
    log of the version-control commands that ran. The wiki only hands
    the machine outputs of [filepath.Clean], so a node is looked up by
    the spelling of its path; there is one user, who may read and write
    everything. *)

Module MemFS.

Inductive node := File (data : list byte) | Directory.

Record machine := mk { fs : gmap string node; log : list (list string) }.

Definition is_dir (n : node) : bool :=
  match n with Directory => true | File _ => false end.

(** The entries of directory [p]: the nodes whose parent is [p]. *)
Definition entries (m : gmap string node) (p : string)
  : list (string * node) :=
  filter (fun kn => filepath.Dir kn.1 = p /\ kn.1 <> p) (map_to_list m).

(** Why a path cannot be opened or created in its parent directory. *)
Definition parent_error (m : gmap string node) (p : string)
  : option Errno :=
  match m !! filepath.Dir p with
  | Some Directory => None
  | Some (File _) => Some ENOTDIR
  | None => Some ENOENT
  end.

(** [ioutil.WriteFile]: create or truncate, then write. *)
Definition WriteFile (p : string) (data : list byte) (perm : N)
    (st : machine) : option error * machine :=
  match fs st !! p with
  | Some Directory => (Some (PathError "open" p EISDIR), st)
  | _ =>
      match parent_error (fs st) p with
      | Some e => (Some (PathError "open" p e), st)
      | None => (None, mk (<[p := File data]> (fs st)) (log st))
      end
  end.

(** [ioutil.ReadFile]. *)
Definition ReadFile (p : string) (st : machine)
  : list byte * option error :=
  match fs st !! p with
  | Some (File data) => (data, None)
  | Some Directory => ([], Some (PathError "read" p EISDIR))
  | None => ([], Some (PathError "open" p ENOENT))
  end.

(** [os.Remove]: unlinks a file or removes an empty directory. *)
Definition Remove (p : string) (st : machine) : option error * machine :=
  match fs st !! p with
  | None => (Some (PathError "remove" p ENOENT), st)
  | Some (File _) => (None, mk (delete p (fs st)) (log st))
  | Some Directory =>
      match entries (fs st) p with
      | [] => (None, mk (delete p (fs st)) (log st))
      | _ :: _ => (Some (PathError "remove" p ENOTEMPTY), st)
      end
  end.

Definition name_le (f g : os.FileInfo) : Prop :=
  String.leb (os.Name f) (os.Name g) = true.

#[local] Instance name_le_dec : RelDecision name_le :=
  fun f g => decide (String.leb (os.Name f) (os.Name g) = true).

(** [ioutil.ReadDir]: the entries of the directory, sorted by name. *)
Definition ReadDir (p : string) (st : machine)
  : list os.FileInfo * option error :=
  match fs st !! p with
  | Some Directory =>
      (merge_sort name_le
         (map (fun kn => os.mkFileInfo (filepath.Base kn.1) (is_dir kn.2))
              (entries (fs st) p)),
       None)
  | Some (File _) => ([], Some (PathError "readdirent" p ENOTDIR))
  | None => ([], Some (PathError "open" p ENOENT))
  end.

(** [os.Mkdir]. *)
Definition Mkdir (p : string) (m : gmap string node)
  : option error * gmap string node :=
  match m !! p with
  | Some _ => (Some (PathError "mkdir" p EEXIST), m)
  | None =>
      match parent_error m p with
      | Some e => (Some (PathError "mkdir" p e), m)
      | None => (None, <[p := Directory]> m)
      end
  end.

(** [path[0:j-1]] of [os.MkdirAll] when [j > 1]: trailing separators
    skipped, the last element scanned over and the separator before
    it dropped. *)
Definition parent_prefix (path : string) : option string :=
  let r := filepath.strip_separators (rev (list_ascii_of_string path)) in
  match filepath.drop_last_element r with
  | _ :: (_ :: _) as rest => Some (string_of_list_ascii (rev rest))
  | _ => None
  end.

(** [os.MkdirAll]; [fuel] bounds the recursion on the parent, which
    is a proper prefix of [path]. *)
Fixpoint mkdir_all (fuel : nat) (path : string) (m : gmap string node)
  : option error * gmap string node :=
  match m !! path with
  | Some Directory => (None, m)
  | Some (File _) => (Some (PathError "mkdir" path ENOTDIR), m)
  | None =>
      let '(err, m1) :=
        match fuel, parent_prefix path with
        | S fuel', Some parent => mkdir_all fuel' parent m
        | _, _ => (None, m)
        end in
      match err with
      | Some _ => (err, m1)
      | None => Mkdir path m1
      end
  end.

Definition MkdirAll (path : string) (perm : N) (st : machine)
  : option error * machine :=
  let '(err, m) := mkdir_all (String.length path) path (fs st) in
  (err, mk m (log st)).

(** [cmd.Run()] for the version-control executable: it needs the
    working directory [dir]; [init] creates the metadata directory,
    the other commands need it and are recorded in the log. *)
Definition Run (dir name : string) (args : list string) (st : machine)
  : option error * machine :=
  if negb (String.eqb name "git") then (Some (ExecError name), st)
  else
    match fs st !! dir with
    | Some Directory =>
        let meta := filepath.Join [dir; ".git"] in
        if bool_decide (args = ["init"]) then
          (None, mk (<[meta := Directory]> (fs st)) (args :: log st))
        else
          match fs st !! meta with
          | Some Directory => (None, mk (fs st) (args :: log st))
          | _ => (Some (ExitError 128), st)
          end
    | _ => (Some (PathError "chdir" dir ENOENT), st)
    end.

#[export] Instance memfs : OS := {|
  World := machine;
  os_MkdirAll := MkdirAll;
  ioutil_WriteFile := WriteFile;
  os_Remove := Remove;
  ioutil_ReadFile := ReadFile;
  ioutil_ReadDir := ReadDir;
  cmd_Run := Run
|}.

(** A wiki at [/wiki] holding two pages, a hidden file, a
    subdirectory and the metadata directory. *)
Definition sample : machine :=
  mk (list_to_map
        [("/", Directory); ("/wiki", Directory);
         ("/wiki/.git", Directory); ("/wiki/.gitignore", File []);
         ("/wiki/home.md", File (list_byte_of_string "welcome"));
         ("/wiki/notes", Directory);
         ("/wiki/notes/todo.md", File (list_byte_of_string "milk"));
         ("/wiki/about.md", File (list_byte_of_string "about")) ])
     [].

Definition wiki : Wiki.t := Wiki.mk "/wiki".

End MemFS.

(** ** Containment of paths *)

(** [p] is the directory [dir] itself or lies below it: the spelling of
    [p] is [dir], or [dir] followed by a separator and more. *)
Definition within (dir p : string) : bool :=
  String.eqb p dir || strings.HasPrefix p (dir +:+ "/").

(** ** Rendering and the HTTP front end (server.go) *)

(** [Page.CrumbsOf]. *)
Definition CrumbsOf (pg : Page.t) : list Crumb.t :=
  Breadcrumbs (Page.URI pg).

(** The two third-party calls of [ProcessMarkdown]:
    [blackfriday.MarkdownCommon] and
    [bluemonday.UGCPolicy().SanitizeBytes]. *)
Class Renderer := {
  MarkdownCommon : list byte -> list byte;
  SanitizeBytes : list byte -> list byte
}.

(** [Page.ProcessMarkdown]: the page with its [Body] assigned. *)
Definition ProcessMarkdown `{Renderer} (pg : Page.t) : Page.t :=
  let unsafe := MarkdownCommon (list_byte_of_string (Page.Raw pg)) in
  Page.mk (Page.Path pg) (Page.URI pg) (Page.Raw pg)
          (string_of_list_byte (SanitizeBytes unsafe)).

(** [os.Stat], which only the front end calls; the [FileInfo] is
    meaningful when the error is [nil]. *)
Class OSStat `{OS} := {
  os_Stat : string -> World -> os.FileInfo * option error
}.

Module Request.

(** The parts of [*http.Request] the handlers read: [r.URL.Path] and,
    after [r.ParseForm()], [r.Form]. *)
Record t := mk { URL_Path : string; Form : gmap string (list string) }.

(** [url.Values.Get(key)]: the first value of the key, or [""]. *)
Definition Form_Get (r : t) (key : string) : string :=
  match Form r !! key with
  | Some (v :: _) => v
  | _ => ""
  end.

End Request.

(** What a handler hands to a template. *)
Inductive TemplateData :=
| DataDir (dir : list PageInfo.t)
| DataPage (pg : Page.t)
| DataPath (path : string).

(** What a handler does to its [http.ResponseWriter]: nothing,
    [t.Execute(w, data)] for the template parsed from a file,
    [http.Redirect(w, r, url, code)], or a run-time panic of a slice
    expression. *)
Inductive Response :=
| NoResponse
| Executed (template : string) (data : TemplateData)
| Redirected (url : string) (code : N)
| Panicked.

Definition StatusFound : N := 302.

(** The slice expression [s[n:]]; [None] when [n > len(s)]. *)
Fixpoint slice_from (s : string) (n : nat) : option string :=
  match n, s with
  | O, _ => Some s
  | S _, EmptyString => None
  | S k, String _ s' => slice_from s' k
  end.

Section Server.

Context `{OSStat} `{Renderer}.

(** The handler [ShowPage(wiki)] returns. *)
Definition ShowPage (wiki : Wiki.t) (r : Request.t) (st : World) : Response :=
  let '(p, err) := Local wiki (Request.URL_Path r) in
  match err with
  | None =>
      let '(info, err) := os_Stat p st in
      match err with
      | None =>
          if os.IsDir info then
            let '(dir, e) := GetDir wiki (Request.URL_Path r) st in
            match e with
            | None => Executed "static/templates/list.html" (DataDir dir)
            | Some _ => NoResponse
            end
          else
            let '(pg, e) := GetPage wiki (Request.URL_Path r) st in
            let pg := ProcessMarkdown pg in
            match e with
            | None => Executed "static/templates/show.html" (DataPage pg)
            | Some _ => NoResponse
            end
      | Some _ =>
          Executed "static/templates/create.html"
                   (DataPath (Request.URL_Path r))
      end
  | Some _ => NoResponse
  end.

(** The handler [ShowEdit(wiki)] returns. *)
Definition ShowEdit (wiki : Wiki.t) (r : Request.t) (st : World) : Response :=
  match slice_from (Request.URL_Path r) (String.length "/edit/") with
  | None => Panicked
  | Some path =>
      let '(pg, err) := GetPage wiki path st in
      match err with
      | None => Executed "static/templates/edit.html" (DataPage pg)
      | Some _ => NoResponse
      end
  end.

(** The handler [RemovePage(wiki)] returns. *)
Definition RemovePage (wiki : Wiki.t) (r : Request.t) : M Response :=
  match slice_from (Request.URL_Path r) (String.length "/api/remove/") with
  | None => ret Panicked
  | Some path0 =>
      do err <- Remove wiki path0;
      match err with
      | None =>
          match slice_from (Request.URL_Path r) (String.length "/api/remove")
          with
          | None => ret Panicked
          | Some path => ret (Redirected (filepath.Dir path) StatusFound)
          end
      | Some _ => ret NoResponse
      end
  end.

(** The handler [CreatePage(wiki)] returns. *)
Definition CreatePage (wiki : Wiki.t) (r : Request.t) : M Response :=
  match slice_from (Request.URL_Path r) (String.length "/api/create/") with
  | None => ret Panicked
  | Some path =>
      do err <- Create wiki path;
      match err with
      | None => ret (Redirected ("/" +:+ path) StatusFound)
      | Some _ => ret NoResponse
      end
  end.

(** The handler [EditPage(wiki)] returns. *)
Definition EditPage (wiki : Wiki.t) (r : Request.t) : M Response :=
  match slice_from (Request.URL_Path r) (String.length "/api/edit/") with
  | None => ret Panicked
  | Some path =>
      let body := Request.Form_Get r "new_contents" in
      do err <- Edit wiki path (list_byte_of_string body);
      match err with
      | None => ret (Redirected ("/" +:+ path) StatusFound)
      | Some _ => ret NoResponse
      end
  end.

End Server.

(** ** Further assumptions on the machine *)

(** Files are independent: writing or removing one path leaves the
    others as they read before, and [MkdirAll] never changes what a
    readable file holds. *)
Class OSFrame `{OS} : Prop := {
  ReadFile_WriteFile_other (p q : string) (data : list byte) (perm : N)
      (st : World) :
    p <> q ->
    ioutil_ReadFile q (ioutil_WriteFile p data perm st).2
    = ioutil_ReadFile q st;
  ReadFile_Remove_other (p q : string) (st : World) :
    p <> q ->
    ioutil_ReadFile q (os_Remove p st).2 = ioutil_ReadFile q st;
  ReadFile_MkdirAll (d q : string) (perm : N) (st : World)
      (body : list byte) :
    ioutil_ReadFile q st = (body, None) ->
    ioutil_ReadFile q (os_MkdirAll d perm st).2 = (body, None)
}.

(** [os.Stat] agrees with reading: a readable file is reported as a
    non-directory, a path that reads as missing is reported with an
    error. *)
Class OSStatLaws `{OSStat} : Prop := {
  Stat_file (p : string) (st : World) (body : list byte) :
    ioutil_ReadFile p st = (body, None) ->
    exists info, os_Stat p st = (info, None) /\ os.IsDir info = false;
  Stat_missing (p : string) (st : World) (body : list byte) (e : error) :
    ioutil_ReadFile p st = (body, Some e) -> os.IsNotExist e = true ->
    exists info e', os_Stat p st = (info, Some e')
}.

(** [os.Stat] on the in-memory machine. *)
Definition memfs_Stat (p : string) (st : MemFS.machine)
  : os.FileInfo * option error :=
  match MemFS.fs st !! p with
  | Some n => (os.mkFileInfo (filepath.Base p) (MemFS.is_dir n), None)
  | None => (os.mkFileInfo "" false, Some (PathError "stat" p ENOENT))
  end.

#[export] Instance memfs_stat : @OSStat MemFS.memfs :=
  @Build_OSStat MemFS.memfs memfs_Stat.

(** A renderer for the examples: it wraps the text in a paragraph and
    sanitizes nothing. *)
#[export] Instance sample_renderer : Renderer := {|
  MarkdownCommon raw :=
    list_byte_of_string "<p>" ++ raw ++ list_byte_of_string "</p>";
  SanitizeBytes html := html
|}.

(** A wiki directory that is not a repository: no metadata directory. *)
Definition bare : MemFS.machine :=
  MemFS.mk (list_to_map
              [("/", MemFS.Directory); ("/wiki", MemFS.Directory);
               ("/wiki/home.md", MemFS.File (list_byte_of_string "welcome"))])
           [].

(** * Properties *)

(** ** String prefixes *)

Lemma HasPrefix_refl (s : string) : strings.HasPrefix s s = true.
Proof.
  induction s as [|c s IH]; simpl; [done|].
  by rewrite Ascii.eqb_refl.
Qed.

Lemma HasPrefix_app (s a b : string) :
  strings.HasPrefix s (a +:+ b) = true -> strings.HasPrefix s a = true.
Proof.
  revert s. induction a as [|c a IH]; intros s; simpl; [done|].
  destruct s as [|d s]; [done|].
  destruct (Ascii.eqb c d); [apply IH | done].
Qed.

Lemma within_HasPrefix (dir p : string) :
  within dir p = true -> strings.HasPrefix p dir = true.
Proof.
  unfold within. intros [Heq | Hpre]%orb_true_iff.
  - apply String.eqb_eq in Heq as ->. apply HasPrefix_refl.
  - by apply HasPrefix_app in Hpre.
Qed.

(** ** The library models on known values *)

Example Clean_values :
  filepath.Clean "" = "."
  /\ filepath.Clean "/" = "/"
  /\ filepath.Clean "a//b/./c/" = "a/b/c"
  /\ filepath.Clean "/a/b/../../.." = "/"
  /\ filepath.Clean "a/../../b" = "../b"
  /\ filepath.Clean "/wiki/..a/.b" = "/wiki/..a/.b".
Proof. repeat split; by vm_compute. Qed.

Example Join_values :
  filepath.Join ["/wiki"; ""] = "/wiki"
  /\ filepath.Join [""; "a/"] = "a"
  /\ filepath.Join ["/wiki"; "/a/b"] = "/wiki/a/b"
  /\ filepath.Join [""; ""] = ""
  /\ filepath.Join ["/wiki"; ".git"] = "/wiki/.git".
Proof. repeat split; by vm_compute. Qed.

Example Dir_Base_values :
  filepath.Dir "/wiki/a/b.md" = "/wiki/a"
  /\ filepath.Dir "wiki" = "."
  /\ filepath.Dir "/wiki" = "/"
  /\ filepath.Base "/wiki/a/b.md" = "b.md"
  /\ filepath.Base "/" = "/".
Proof. repeat split; by vm_compute. Qed.

Example Split_values :
  strings.Split "/a/b/c" "/" = [""; "a"; "b"; "c"]
  /\ strings.Split "" "/" = [""]
  /\ strings.Split "a--b---c" "--" = ["a"; "b"; "-c"]
  /\ strings.Split "abc" "" = ["a"; "b"; "c"].
Proof. repeat split; by vm_compute. Qed.

(** [Split] on a non-empty separator returns at least one piece, so the
    slice [split[:len(split)-1]] of [Breadcrumbs] is in range. *)
Lemma Split_nonempty (s sep : string) :
  sep <> "" -> strings.Split s sep <> [].
Proof.
  intros Hsep. unfold strings.Split. destruct sep as [|c sep]; [done|].
  generalize (String c sep) as sp, 0, (@nil ascii).
  induction s as [|d s IH]; intros sp skip cur; simpl; [done|].
  destruct skip; [|apply IH].
  destruct (strings.HasPrefix _ sp); [done | apply IH].
Qed.

(** ** The path sanitizer *)

(** The outcome of [Local] is decided by the two prefix tests. *)
Lemma Local_cases (w : Wiki.t) (path : string) :
  let p := filepath.Clean (filepath.Join [Wiki.Path w; path]) in
  let meta := filepath.Join [Wiki.Path w; ".git"] in
  (strings.HasPrefix p (Wiki.Path w) = true
   /\ strings.HasPrefix p meta = false
   /\ Local w path = (p, None))
  \/ ((strings.HasPrefix p (Wiki.Path w) = false
       \/ strings.HasPrefix p meta = true)
      /\ Local w path = ("", Some err_outside)).
Proof.
  intros p meta. unfold Local. fold p meta.
  destruct (strings.HasPrefix p (Wiki.Path w)),
    (strings.HasPrefix p meta); simpl; auto.
Qed.

(** A path that [Local] accepts is the cleaned join, has the root as a
    string prefix and does not have the metadata directory as one. *)
Lemma Local_ok (w : Wiki.t) (path p : string) :
  Local w path = (p, None) ->
  p = filepath.Clean (filepath.Join [Wiki.Path w; path])
  /\ strings.HasPrefix p (Wiki.Path w) = true
  /\ strings.HasPrefix p (filepath.Join [Wiki.Path w; ".git"]) = false.
Proof.
  intros Hl.
  destruct (Local_cases w path) as [(H1 & H2 & H3) | [_ H3]];
    rewrite H3 in Hl; [|done].
  by injection Hl as <-.
Qed.

(** When [Local] fails, the error is "path outside of repo". *)
Lemma Local_err (w : Wiki.t) (path p : string) (e : error) :
  Local w path = (p, Some e) -> p = "" /\ e = err_outside.
Proof.
  intros Hl.
  destruct (Local_cases w path) as [(_ & _ & H3) | [_ H3]];
    rewrite H3 in Hl; [done|].
  by injection Hl as <- <-.
Qed.

(** C1 (as amended). [Local] returns the cleaned join of root and path
    with no error exactly when the cleaned join has the root as a string
    prefix and does not have the root's [.git] join as a string prefix;
    otherwise it returns the empty string and the "path outside of repo"
    error. In particular every path whose cleaned join does not start
    with the spelling of the root, and every path that resolves to the
    metadata directory or below it, is rejected. *)
Theorem Local_spec (w : Wiki.t) (path : string) :
  let p := filepath.Clean (filepath.Join [Wiki.Path w; path]) in
  let meta := filepath.Join [Wiki.Path w; ".git"] in
  let accepted :=
    strings.HasPrefix p (Wiki.Path w) = true
    /\ strings.HasPrefix p meta = false in
  (Local w path = (p, None) <-> accepted)
  /\ (Local w path = ("", Some err_outside) <-> ~ accepted)
  /\ (strings.HasPrefix p (Wiki.Path w) = false ->
      Local w path = ("", Some err_outside))
  /\ (within meta p = true -> Local w path = ("", Some err_outside)).
Proof.
  intros p meta accepted. subst accepted.
  pose proof (Local_cases w path) as Hc. cbv zeta in Hc. fold p meta in Hc.
  destruct Hc as [(H1 & H2 & H3) | [H12 H3]]; rewrite H3.
  - split; [|split; [|split]].
    + done.
    + split; [done | intros Hn; by destruct Hn].
    + congruence.
    + intros Hw%within_HasPrefix. congruence.
  - split; [|split; [|split]]; [| |done..].
    + split; [done | intros [Ha Hb]; destruct H12; congruence].
    + split; [|done]. intros _ [Ha Hb]. destruct H12; congruence.
Qed.

(** C1, the claim as written fails: the cleaned join of [/wiki] and
    [../wiki2/x] leaves the root through a [..] segment, yet [Local]
    accepts it. *)
Lemma Local_accepts_dotdot_escape :
  let w := Wiki.mk "/wiki" in
  let path := "../wiki2/x" in
  filepath.Clean (filepath.Join [Wiki.Path w; path]) = "/wiki2/x"
  /\ within (Wiki.Path w) "/wiki2/x" = false
  /\ Local w path = ("/wiki2/x", None)
  /\ Local w path <> ("", Some err_outside).
Proof. repeat split; by vm_compute. Qed.


(** C10. [Local] rejects some ordinary file of the root whose name only
    begins with [.git]: for [.gitignore] the cleaned join starts with
    the string root+"/.git" and the error is returned, although the
    file is inside the root and not inside the metadata directory. *)
Theorem Local_rejects_gitignore :
  exists (w : Wiki.t) (path : string),
    let p := filepath.Clean (filepath.Join [Wiki.Path w; path]) in
    path = ".gitignore"
    /\ strings.HasPrefix p (Wiki.Path w +:+ "/.git") = true
    /\ Local w path = ("", Some err_outside)
    /\ within (Wiki.Path w) p = true
    /\ filepath.Dir p = Wiki.Path w
    /\ within (filepath.Join [Wiki.Path w; ".git"]) p = false.
Proof. exists (Wiki.mk "/wiki"), ".gitignore". repeat split; by vm_compute. Qed.

(** ** Breadcrumbs *)

(** The loop of [Breadcrumbs] appends, in order, the crumbs of the
    indices whose segment is not empty. *)
Lemma Breadcrumbs_loop (split : list string) (ixs : list nat)
    (res : list Crumb.t) :
  fold_left (Breadcrumbs_step split) ixs res =
  res ++ map (fun ix => Crumb.mk (nth ix split "")
                          (strings.Join (take (ix + 1) split) "/"))
             (filter (fun ix => nth ix split "" <> "") ixs).
Proof.
  revert res. induction ixs as [|ix ixs IH]; intros res; simpl.
  - by rewrite app_nil_r.
  - rewrite IH. unfold Breadcrumbs_step.
    rewrite filter_cons.
    destruct (String.eqb_spec (nth ix split "") "") as [Heq | Hne]; simpl.
    + by rewrite decide_False by (intros Hn; by apply Hn).
    + rewrite decide_True by done. simpl. by rewrite <- app_assoc.
Qed.

(** C8. [Breadcrumbs("/a/b/c")] is [home], [a], [b] with the links [/],
    [/a], [/a/b]; in general the result is the home crumb followed by
    one crumb per non-empty segment other than the last, linking to the
    prefix of the path that ends at that segment. *)
Theorem Breadcrumbs_abc :
  Breadcrumbs "/a/b/c"
  = [Crumb.mk "home" "/"; Crumb.mk "a" "/a"; Crumb.mk "b" "/a/b"]
  /\ forall path : string,
      let split := strings.Split path "/" in
      Breadcrumbs path
      = Crumb.mk "home" "/"
        :: map (fun ix => Crumb.mk (nth ix split "")
                            (strings.Join (take (ix + 1) split) "/"))
               (filter (fun ix => nth ix split "" <> "")
                       (seq 0 (length split - 1))).
Proof.
  split; [by vm_compute|].
  intros path split. unfold Breadcrumbs. fold split.
  by rewrite Breadcrumbs_loop.
Qed.

(** ** The version-control shim *)

Lemma Commit_returns_nil_state `{OS} (w : Wiki.t) (path message : string)
    (st : World) :
  Commit w path message st
  = (None,
     (cmd_Run (Wiki.Path w) "git" ["commit"; "-m"; message]
        (cmd_Run (Wiki.Path w) "git" ["add"; "--all"; path] st).2).2).
Proof.
  unfold Commit, ExecIn, bind, ret.
  destruct (cmd_Run _ _ _ st) as [e1 st1]; simpl.
  by destruct (cmd_Run _ _ _ st1) as [e2 st2].
Qed.

(** C6. [Commit] returns [nil] for every path and message, whatever
    the two subprocess runs return: their errors are dropped, and the
    machine is left as the two runs leave it. *)
Theorem Commit_returns_nil `{OS} (w : Wiki.t) (path message : string)
    (st : World) :
  let add := cmd_Run (Wiki.Path w) "git" ["add"; "--all"; path] st in
  let commit := cmd_Run (Wiki.Path w) "git" ["commit"; "-m"; message] add.2 in
  Commit w path message st = (None, commit.2).
Proof. simpl. apply Commit_returns_nil_state. Qed.

(** A run of [Commit] leaves the files outside the metadata spelling
    as they were. *)
Lemma ReadFile_Commit `{OSLaws} (w : Wiki.t) (path message : string)
    (st : World) (p : string) :
  strings.HasPrefix p (filepath.Join [Wiki.Path w; ".git"]) = false ->
  ioutil_ReadFile p (Commit w path message st).2 = ioutil_ReadFile p st.
Proof.
  intros Hp. rewrite Commit_returns_nil_state. simpl.
  by rewrite !ReadFile_Run.
Qed.

(** ** The page store *)

Section PageStoreFacts.

Context `{OSLaws}.

(** A successful [Edit] wrote [contents] at the sanitized path. *)
Lemma Edit_ok (w : Wiki.t) (path : string) (contents : list byte)
    (st st' : World) :
  Edit w path contents st = (None, st') ->
  exists p, Local w path = (p, None)
            /\ ioutil_ReadFile p st' = (contents, None).
Proof.
  unfold Edit, bind, ret.
  destruct (Local w path) as [p [e|]] eqn:Hl; [done|].
  destruct (ioutil_WriteFile p contents _ st) as [[e|] st1] eqn:Hw; [done|].
  intros Hc. exists p. split; [done|].
  apply Local_ok in Hl as (_ & _ & Hmeta).
  apply (f_equal snd) in Hc. simpl in Hc. subst st'.
  rewrite ReadFile_Commit by done. by eapply ReadFile_WriteFile.
Qed.

(** A successful [Remove] leaves nothing to read at the sanitized
    path. *)
Lemma Remove_ok (w : Wiki.t) (path : string) (st st' : World) :
  Remove w path st = (None, st') ->
  exists p e, Local w path = (p, None)
              /\ ioutil_ReadFile p st' = ([], Some e)
              /\ os.IsNotExist e = true.
Proof.
  unfold Remove, bind, ret.
  destruct (Local w path) as [p [e|]] eqn:Hl; [done|].
  destruct (os_Remove p st) as [[e|] st1] eqn:Hr; [done|].
  intros Hc. apply ReadFile_Remove in Hr as (e & Hread & Hne).
  exists p, e. split; [done|]. split; [|done].
  apply Local_ok in Hl as (_ & _ & Hmeta).
  apply (f_equal snd) in Hc. simpl in Hc. subst st'.
  by rewrite ReadFile_Commit.
Qed.

End PageStoreFacts.

(** C3 (as amended). For every valid path, a [Create] that succeeds
    leaves the placeholder ["# " + path] as the contents of the file,
    whatever the file held before: the write is unconditional. *)
Theorem Create_writes_placeholder `{OSLaws} (w : Wiki.t) (path : string)
    (st st' : World) :
  Create w path st = (None, st') ->
  exists p, Local w path = (p, None)
            /\ ioutil_ReadFile p st'
               = (list_byte_of_string ("# " +:+ path), None).
Proof.
  unfold Create, bind, ret.
  destruct (Local w path) as [p [e|]] eqn:Hl; [done|].
  destruct (os_MkdirAll _ _ st) as [e0 st0].
  destruct (ioutil_WriteFile p _ _ st0) as [[e|] st1] eqn:Hw; [done|].
  intros Hc. exists p. split; [done|].
  apply Local_ok in Hl as (_ & _ & Hmeta).
  apply (f_equal snd) in Hc. simpl in Hc. subst st'.
  rewrite ReadFile_Commit by done. by eapply ReadFile_WriteFile.
Qed.

(** C4. For every path and byte sequence, after a successful
    [Edit(path, contents)] the call [GetPage(path)] succeeds and the
    [Raw] field of its page holds exactly the bytes written. *)
Theorem Edit_GetPage_roundtrip `{OSLaws} (w : Wiki.t) (path : string)
    (contents : list byte) (st st' : World) :
  Edit w path contents st = (None, st') ->
  exists pg, GetPage w path st' = (pg, None)
             /\ Page.Raw pg = string_of_list_byte contents
             /\ list_byte_of_string (Page.Raw pg) = contents.
Proof.
  intros (p & Hl & Hread)%Edit_ok.
  unfold GetPage. rewrite Hl, Hread.
  eexists. split; [done|]. simpl. split; [done|].
  apply list_byte_of_string_of_list_byte.
Qed.

(** C5. [Remove(path)] returns the validation error when the path is
    invalid and a not-found error when no file is at the path;
    otherwise, a file being there, it succeeds and the file is gone.
    After any successful [Remove(path)], [GetPage(path)] fails with a
    not-found error. *)
Theorem Remove_spec `{OSLaws} (w : Wiki.t) (path : string) (st : World) :
  (forall e, (Local w path).2 = Some e -> Remove w path st = (Some e, st))
  /\ (forall p body e,
        Local w path = (p, None) ->
        ioutil_ReadFile p st = (body, Some e) -> os.IsNotExist e = true ->
        exists e', (Remove w path st).1 = Some e'
                   /\ os.IsNotExist e' = true)
  /\ (forall p body,
        Local w path = (p, None) ->
        ioutil_ReadFile p st = (body, None) ->
        exists st' e, Remove w path st = (None, st')
                      /\ ioutil_ReadFile p st' = ([], Some e)
                      /\ os.IsNotExist e = true)
  /\ (forall st',
        Remove w path st = (None, st') ->
        exists e, GetPage w path st' = (Page.zero, Some e)
                  /\ os.IsNotExist e = true).
Proof.
  split; [|split; [|split]].
  - intros e He. unfold Remove.
    destruct (Local w path) as [p [e'|]]; simpl in He; [|done].
    by injection He as ->.
  - intros p body e Hl Hread Hne.
    destruct (Remove_missing p st body e Hread Hne) as (e' & Hr & Hne').
    exists e'. split; [|done].
    unfold Remove, bind, ret. by rewrite Hl, Hr.
  - intros p body Hl Hread.
    destruct (Remove_file p st body Hread) as (st1 & Hr).
    destruct (Remove w path st) as [err st'] eqn:Hrm.
    assert (err = None) as ->.
    { revert Hrm. unfold Remove, bind, ret. rewrite Hl, Hr.
      rewrite Commit_returns_nil_state. congruence. }
    exists st'. destruct (Remove_ok _ _ _ _ Hrm) as (p' & e & Hl' & Hre & Hne).
    exists e. rewrite Hl in Hl'. injection Hl' as <-. done.
  - intros st' (p & e & Hl & Hread & Hne)%Remove_ok.
    exists e. split; [|done].
    unfold GetPage. by rewrite Hl, Hread.
Qed.

(** The loop of [GetDir] appends, in order, one entry per file whose
    name does not start with a dot. *)
Lemma GetDir_loop (path : string) (files : list os.FileInfo)
    (res : list PageInfo.t) :
  fold_left (GetDir_step path) files res =
  res ++ map (fun f => PageInfo.mk (filepath.Join [path; os.Name f])
                         (os.Name f) (os.IsDir f))
             (filter (fun f => strings.HasPrefix (os.Name f) "." = false)
                     files).
Proof.
  revert res. induction files as [|f files IH]; intros res.
  - cbn [fold_left]. by rewrite filter_nil, app_nil_r.
  - cbn [fold_left]. rewrite IH, filter_cons. unfold GetDir_step.
    case_decide as Hdot.
    + rewrite Hdot. cbn [negb map]. by rewrite <- app_assoc.
    + apply not_false_iff_true in Hdot. by rewrite Hdot.
Qed.

(** C7. On a valid path whose directory the machine lists as [files],
    [GetDir] returns, in the order of the listing, one [PageInfo] per
    entry whose name does not begin with ".", carrying the name, the
    join of the request path with the name, and the entry's directory
    flag; entries whose name begins with "." are left out. *)
Theorem GetDir_spec `{OS} (w : Wiki.t) (path p : string) (st : World)
    (files : list os.FileInfo) :
  Local w path = (p, None) ->
  ioutil_ReadDir p st = (files, None) ->
  GetDir w path st
  = (map (fun f => PageInfo.mk (filepath.Join [path; os.Name f])
                     (os.Name f) (os.IsDir f))
         (filter (fun f => strings.HasPrefix (os.Name f) "." = false) files),
     None).
Proof.
  intros Hl Hrd. unfold GetDir. rewrite Hl, Hrd.
  by rewrite GetDir_loop.
Qed.

(** C9. For every path that passes validation, the error [Create]
    returns is the one of the file write on the machine that
    [MkdirAll] left, whatever [MkdirAll] itself returned: when
    [MkdirAll] fails and the write succeeds [Create] returns [nil],
    and an error of [MkdirAll] is returned only if the write fails
    with the same error. *)
Theorem Create_ignores_MkdirAll_error `{OS} (w : Wiki.t) (path p : string)
    (st : World) :
  Local w path = (p, None) ->
  let mkdir := os_MkdirAll (filepath.Dir p) 0o777 st in
  let write :=
    ioutil_WriteFile p (list_byte_of_string ("# " +:+ path)) 0o600 mkdir.2 in
  (Create w path st).1 = write.1
  /\ (write.1 = None -> (Create w path st).1 = None)
  /\ (forall e, mkdir.1 = Some e -> write.1 <> Some e ->
                (Create w path st).1 <> Some e).
Proof.
  intros Hl mkdir write.
  assert ((Create w path st).1 = write.1) as Heq.
  { subst write mkdir. unfold Create, bind, ret. rewrite Hl.
    destruct (os_MkdirAll _ _ st) as [e0 st0]; simpl.
    destruct (ioutil_WriteFile p _ _ st0) as [[e|] st1]; simpl; [done|].
    by rewrite Commit_returns_nil_state. }
  split; [done|]. split; [congruence|].
  intros e _ Hne. by rewrite Heq.
Qed.

(** ** The in-memory machine meets the assumptions *)

#[export] Instance memfs_laws : @OSLaws MemFS.memfs.
Proof.
  split; simpl.
  - intros p data perm st st'. unfold MemFS.WriteFile, MemFS.ReadFile.
    destruct (MemFS.fs st !! p) as [[d|]|]; [|done|];
      (destruct (MemFS.parent_error (MemFS.fs st) p); [done|];
       intros [= <-]; simpl; by rewrite lookup_insert_eq).
  - intros p st st'. unfold MemFS.Remove, MemFS.ReadFile.
    destruct (MemFS.fs st !! p) as [[d|]|]; [| |done].
    + intros [= <-]; simpl. rewrite lookup_delete_eq. by eexists.
    + destruct (MemFS.entries _ p); intros [= <-]; simpl.
      rewrite lookup_delete_eq. by eexists.
  - intros p st body e. unfold MemFS.Remove, MemFS.ReadFile.
    destruct (MemFS.fs st !! p) as [[d|]|]; intros [= <- <-]; [done|].
    intros _. by eexists.
  - intros p st body. unfold MemFS.Remove, MemFS.ReadFile.
    destruct (MemFS.fs st !! p) as [[d|]|]; intros [= <-]. by eexists.
  - intros dir name args st p Hp. unfold MemFS.Run, MemFS.ReadFile.
    destruct (negb _); [done|].
    destruct (MemFS.fs st !! dir) as [[d|]|]; [done| |done].
    case_bool_decide; simpl.
    + rewrite lookup_insert_ne; [done|].
      intros <-. by rewrite HasPrefix_refl in Hp.
    + by destruct (MemFS.fs st !! filepath.Join [dir; ".git"]) as [[d|]|].
Qed.

(** The recursion of [MkdirAll] ends: the parent is a proper prefix of
    the path, so any fuel that covers the length of the path gives the
    same result. *)

Lemma length_list_ascii_of_string (s : string) :
  length (list_ascii_of_string s) = String.length s.
Proof. induction s as [|c s IH]; simpl; [done | by rewrite IH]. Qed.

Lemma length_string_of_list_ascii (l : list ascii) :
  String.length (string_of_list_ascii l) = length l.
Proof. induction l as [|c l IH]; simpl; [done | by rewrite IH]. Qed.

Lemma strip_separators_length (r : list ascii) :
  length (filepath.strip_separators r) <= length r.
Proof.
  induction r as [|c r IH]; simpl; [done|].
  destruct (filepath.IsPathSeparator c); simpl; lia.
Qed.

Lemma drop_last_element_length (r : list ascii) :
  length (filepath.drop_last_element r) <= length r.
Proof.
  induction r as [|c r IH]; simpl; [done|].
  destruct (filepath.IsPathSeparator c); simpl; lia.
Qed.

Lemma parent_prefix_shorter (path parent : string) :
  MemFS.parent_prefix path = Some parent ->
  String.length parent < String.length path.
Proof.
  unfold MemFS.parent_prefix.
  pose proof (strip_separators_length (rev (list_ascii_of_string path))) as H1.
  pose proof (drop_last_element_length
                (filepath.strip_separators
                   (rev (list_ascii_of_string path)))) as H2.
  rewrite length_rev, length_list_ascii_of_string in H1.
  destruct (filepath.drop_last_element _) as [|c [|d rest]]; [done..|].
  intros Hs. injection Hs as <-.
  rewrite length_string_of_list_ascii, length_app, length_rev.
  simpl in *. lia.
Qed.

Lemma mkdir_all_fuel (n1 n2 : nat) (path : string) (m : gmap string MemFS.node) :
  String.length path <= n1 -> String.length path <= n2 ->
  MemFS.mkdir_all n1 path m = MemFS.mkdir_all n2 path m.
Proof.
  revert n2 path m. induction n1 as [|n1 IH]; intros n2 path m H1 H2.
  - destruct path; [|simpl in H1; lia].
    destruct n2; reflexivity.
  - destruct n2 as [|n2].
    + destruct path; [|simpl in H2; lia]. reflexivity.
    + simpl. destruct (m !! path) as [[d|]|]; [done..|].
      destruct (MemFS.parent_prefix path) as [parent|] eqn:Hp; [|done].
      apply parent_prefix_shorter in Hp.
      by rewrite (IH n2) by lia.
Qed.

(** The listing of a directory holds exactly its entries, by name and
    kind, in the order of their names. *)
Lemma ReadDir_entries (p : string) (st : MemFS.machine)
    (files : list os.FileInfo) :
  MemFS.ReadDir p st = (files, None) ->
  Sorted MemFS.name_le files
  /\ forall f, f ∈ files <->
       exists k n, MemFS.fs st !! k = Some n
                   /\ filepath.Dir k = p /\ k <> p
                   /\ f = os.mkFileInfo (filepath.Base k) (MemFS.is_dir n).
Proof.
  unfold MemFS.ReadDir.
  destruct (MemFS.fs st !! p) as [[d|]|]; [done| |done].
  intros [= <-]. split.
  - apply Sorted_merge_sort. intros f g. apply String.leb_total.
  - intros f. rewrite merge_sort_Permutation, list_elem_of_fmap.
    unfold MemFS.entries. split.
    + intros ([k n] & -> & (Hk & Hm)%list_elem_of_filter).
      apply elem_of_map_to_list in Hm. simpl in *.
      exists k, n. by destruct Hk.
    + intros (k & n & Hm & Hd & Hne & ->).
      exists (k, n). split; [done|].
      apply list_elem_of_filter. split; [done|].
      by apply elem_of_map_to_list.
Qed.

(** ** The page store on the sample machine *)

(** C3, the claim as written fails: [/wiki/home.md] holds "welcome";
    [Create("home.md")] succeeds and the file then holds the
    placeholder instead. *)
Lemma Create_overwrites_existing :
  let st := MemFS.sample in
  let st' := (@Create MemFS.memfs MemFS.wiki "home.md" st).2 in
  Local MemFS.wiki "home.md" = ("/wiki/home.md", None)
  /\ MemFS.ReadFile "/wiki/home.md" st
     = (list_byte_of_string "welcome", None)
  /\ (@Create MemFS.memfs MemFS.wiki "home.md" st).1 = None
  /\ MemFS.ReadFile "/wiki/home.md" st'
     = (list_byte_of_string "# home.md", None)
  /\ MemFS.ReadFile "/wiki/home.md" st' <> MemFS.ReadFile "/wiki/home.md" st.
Proof. repeat split; by vm_compute. Qed.

(** [Create("home.md")] on the sample machine: the placeholder is read
    back. *)
Lemma Create_writes_placeholder_witness :
  let st' := (@Create MemFS.memfs MemFS.wiki "home.md" MemFS.sample).2 in
  @Create MemFS.memfs MemFS.wiki "home.md" MemFS.sample = (None, st')
  /\ exists p, Local MemFS.wiki "home.md" = (p, None)
               /\ MemFS.ReadFile p st'
                  = (list_byte_of_string "# home.md", None).
Proof.
  split; [by vm_compute|].
  apply (Create_writes_placeholder (H0 := memfs_laws) MemFS.wiki "home.md"
           MemFS.sample).
  by vm_compute.
Defined.

(** [Edit("notes/todo.md", "eggs")] then [GetPage] on the sample
    machine. *)
Lemma Edit_GetPage_roundtrip_witness :
  let contents := list_byte_of_string "eggs" in
  let st' :=
    (@Edit MemFS.memfs MemFS.wiki "notes/todo.md" contents MemFS.sample).2 in
  @Edit MemFS.memfs MemFS.wiki "notes/todo.md" contents MemFS.sample
  = (None, st')
  /\ exists pg, @GetPage MemFS.memfs MemFS.wiki "notes/todo.md" st'
                = (pg, None)
                /\ Page.Raw pg = string_of_list_byte contents
                /\ list_byte_of_string (Page.Raw pg) = contents.
Proof.
  split; [by vm_compute|].
  apply (Edit_GetPage_roundtrip (H0 := memfs_laws) MemFS.wiki "notes/todo.md"
           (list_byte_of_string "eggs") MemFS.sample).
  by vm_compute.
Defined.

(** [Remove("home.md")] on the sample machine: the page is gone. *)
Lemma Remove_spec_witness :
  @OSLaws MemFS.memfs
  /\ exists st' e,
       @Remove MemFS.memfs MemFS.wiki "home.md" MemFS.sample = (None, st')
       /\ MemFS.ReadFile "/wiki/home.md" st' = ([], Some e)
       /\ os.IsNotExist e = true.
Proof.
  split; [exact memfs_laws|].
  destruct (Remove_spec (H0 := memfs_laws) MemFS.wiki "home.md" MemFS.sample)
    as (_ & _ & Hfile & _).
  apply (Hfile "/wiki/home.md" (list_byte_of_string "welcome"));
    by vm_compute.
Defined.

(** The listing of the root of the sample wiki: [.git] and
    [.gitignore] are left out, [notes] is flagged as a directory. *)
Lemma GetDir_spec_witness :
  Local MemFS.wiki "/" = ("/wiki", None)
  /\ MemFS.ReadDir "/wiki" MemFS.sample
     = ([os.mkFileInfo ".git" true; os.mkFileInfo ".gitignore" false;
         os.mkFileInfo "about.md" false; os.mkFileInfo "home.md" false;
         os.mkFileInfo "notes" true], None)
  /\ @GetDir MemFS.memfs MemFS.wiki "/" MemFS.sample
     = ([PageInfo.mk "/about.md" "about.md" false;
         PageInfo.mk "/home.md" "home.md" false;
         PageInfo.mk "/notes" "notes" true], None).
Proof.
  split; [by vm_compute|]. split; [by vm_compute|].
  rewrite (GetDir_spec (H := MemFS.memfs) MemFS.wiki "/" "/wiki" MemFS.sample
             (MemFS.ReadDir "/wiki" MemFS.sample).1);
    by vm_compute.
Defined.

(** [Create("home.md/x")] on the sample machine: [MkdirAll] fails on
    the file [/wiki/home.md] with a [mkdir] error, and [Create] returns
    the [open] error of the write instead. *)
Lemma Create_ignores_MkdirAll_error_witness :
  let path := "home.md/x" in
  let p := "/wiki/home.md/x" in
  Local MemFS.wiki path = (p, None)
  /\ (MemFS.MkdirAll (filepath.Dir p) 0o777 MemFS.sample).1
     = Some (PathError "mkdir" "/wiki/home.md" ENOTDIR)
  /\ (@Create MemFS.memfs MemFS.wiki path MemFS.sample).1
     = (MemFS.WriteFile p (list_byte_of_string ("# " +:+ path)) 0o600
          (MemFS.MkdirAll (filepath.Dir p) 0o777 MemFS.sample).2).1
  /\ (@Create MemFS.memfs MemFS.wiki path MemFS.sample).1
     <> Some (PathError "mkdir" "/wiki/home.md" ENOTDIR).
Proof.
  split; [by vm_compute|]. split; [by vm_compute|].
  destruct (Create_ignores_MkdirAll_error (H := MemFS.memfs) MemFS.wiki
              "home.md/x" "/wiki/home.md/x" MemFS.sample)
    as (Heq & _ & Hne); [by vm_compute|].
  split; [exact Heq|].
  apply Hne; by vm_compute.
Defined.

(** * Further properties *)

(** ** Rejected paths *)

(** X1. Every operation of the page store refuses a path that [Local]
    rejects with the "path outside of repo" error, before any call to
    the machine: the mutating ones leave the machine as it was, the
    reading ones return the empty listing and the zero page. *)
Theorem rejected_path_is_not_touched `{OS} (w : Wiki.t) (path : string)
    (contents : list byte) (st : World) :
  (Local w path).2 <> None ->
  Create w path st = (Some err_outside, st)
  /\ Edit w path contents st = (Some err_outside, st)
  /\ Remove w path st = (Some err_outside, st)
  /\ GetDir w path st = ([], Some err_outside)
  /\ GetPage w path st = (Page.zero, Some err_outside).
Proof.
  intros Hrej. unfold Create, Edit, Remove, GetDir, GetPage, ret.
  destruct (Local w path) as [p [e|]] eqn:Hl; [|done].
  by apply Local_err in Hl as [-> ->].
Qed.

(** [../etc/passwd] against the sample wiki. *)
Lemma rejected_path_is_not_touched_witness :
  (Local MemFS.wiki "../etc/passwd").2 <> None
  /\ @Edit MemFS.memfs MemFS.wiki "../etc/passwd"
       (list_byte_of_string "x") MemFS.sample
     = (Some err_outside, MemFS.sample).
Proof.
  split; [by vm_compute|].
  apply (rejected_path_is_not_touched (H := MemFS.memfs) MemFS.wiki
           "../etc/passwd" (list_byte_of_string "x") MemFS.sample).
  by vm_compute.
Defined.

(** ** Which errors the mutations report *)

(** X2. On a valid path, [Edit] returns exactly the error of
    [ioutil.WriteFile] and [Remove] exactly the error of [os.Remove]:
    a failure of the version-control subprocess never makes a mutation
    fail, and never hides a failure of the file operation. *)
Theorem Edit_Remove_report_the_file_error `{OS} (w : Wiki.t)
    (path p : string) (contents : list byte) (st : World) :
  Local w path = (p, None) ->
  (Edit w path contents st).1 = (ioutil_WriteFile p contents 0o600 st).1
  /\ (Remove w path st).1 = (os_Remove p st).1.
Proof.
  intros Hl. unfold Edit, Remove, bind, ret. rewrite Hl. split.
  - destruct (ioutil_WriteFile p contents _ st) as [[e|] st1]; [done|].
    by rewrite Commit_returns_nil_state.
  - destruct (os_Remove p st) as [[e|] st1]; [done|].
    by rewrite Commit_returns_nil_state.
Qed.

(** In a directory that is not a repository both subprocess runs fail,
    and [Edit] still returns [nil] with the file written. *)
Lemma Edit_Remove_report_the_file_error_witness :
  let contents := list_byte_of_string "hello" in
  Local MemFS.wiki "home.md" = ("/wiki/home.md", None)
  /\ (MemFS.Run "/wiki" "git" ["add"; "--all"; "/wiki/home.md"] bare).1
     = Some (ExitError 128)
  /\ (@Edit MemFS.memfs MemFS.wiki "home.md" contents bare).1 = None
  /\ MemFS.ReadFile "/wiki/home.md"
       (@Edit MemFS.memfs MemFS.wiki "home.md" contents bare).2
     = (contents, None).
Proof.
  split; [by vm_compute|]. split; [by vm_compute|].
  split; [|by vm_compute].
  destruct (Edit_Remove_report_the_file_error (H := MemFS.memfs) MemFS.wiki
              "home.md" "/wiki/home.md" (list_byte_of_string "hello") bare)
    as [Hedit _]; [by vm_compute|].
  rewrite Hedit. by vm_compute.
Defined.

(** ** Pages do not interfere *)

Section Frame.

Context `{OSLaws} `{!OSFrame}.

(** What a page reads as after [Commit] is what it read as before. *)
Lemma GetPage_Commit (w : Wiki.t) (path' p message : string) (st : World) :
  GetPage w path' (Commit w p message st).2 = GetPage w path' st.
Proof.
  unfold GetPage. destruct (Local w path') as [q [e|]] eqn:Hl; [done|].
  apply Local_ok in Hl as (_ & _ & Hmeta).
  by rewrite ReadFile_Commit.
Qed.

End Frame.


(** X4. [Create] of one page, with the directories it makes, leaves every
    readable page with another sanitized path as it was. *)
Theorem Create_keeps_other_pages `{OSLaws} `{!OSFrame} (w : Wiki.t)
    (path path' p q : string) (pg : Page.t) (st : World) :
  Local w path = (p, None) -> Local w path' = (q, None) -> p <> q ->
  GetPage w path' st = (pg, None) ->
  GetPage w path' (Create w path st).2 = (pg, None).
Proof.
  intros Hp Hq Hne Hpg.
  assert (exists body, ioutil_ReadFile q st = (body, None)) as [body Hbody].
  { revert Hpg. unfold GetPage. rewrite Hq.
    destruct (ioutil_ReadFile q st) as [body [e|]]; [done|]. by exists body. }
  assert (forall st1, ioutil_ReadFile q st1 = (body, None) ->
                      GetPage w path' st1 = (pg, None)) as Hread.
  { intros st1 Heq. revert Hpg. unfold GetPage. by rewrite Hq, Hbody, Heq. }
  unfold Create, bind, ret. rewrite Hp.
  pose proof (ReadFile_MkdirAll (filepath.Dir p) q 0o777 st body Hbody) as Hm.
  destruct (os_MkdirAll _ _ st) as [e0 st0]; simpl in Hm.
  pose proof (ReadFile_WriteFile_other p q
                (list_byte_of_string ("# " +:+ path)) 0o600 st0 Hne) as Hw.
  destruct (ioutil_WriteFile p _ _ st0) as [[e|] st1]; simpl in *.
  - apply Hread. by rewrite Hw.
  - rewrite GetPage_Commit. apply Hread. by rewrite Hw.
Qed.

(** ** What [GetPage] returns *)

(** X5. A failed [GetPage] returns the zero page. A successful one returns
    the sanitized path, the cleaned request path as URI, the bytes of
    the file unchanged in [Raw], and an empty [Body]: it does not
    render. *)
Theorem GetPage_result `{OS} (w : Wiki.t) (path : string) (st : World) :
  let pg := (GetPage w path st).1 in
  match (GetPage w path st).2 with
  | Some _ => pg = Page.zero
  | None =>
      Local w path = (Page.Path pg, None)
      /\ Page.URI pg = filepath.Clean path
      /\ Page.Body pg = ""
      /\ ioutil_ReadFile (Page.Path pg) st
         = (list_byte_of_string (Page.Raw pg), None)
  end.
Proof.
  unfold GetPage.
  destruct (Local w path) as [p [e|]] eqn:Hl; [done|].
  destruct (ioutil_ReadFile p st) as [body [e|]] eqn:Hr; [done|].
  simpl. by rewrite list_byte_of_string_of_list_byte.
Qed.

(** ** The in-memory machine meets the further assumptions *)

Lemma Mkdir_keeps (p q : string) (m : gmap string MemFS.node)
    (n : MemFS.node) :
  m !! q = Some n -> (MemFS.Mkdir p m).2 !! q = Some n.
Proof.
  intros Hq. unfold MemFS.Mkdir.
  destruct (m !! p) eqn:Hp; [done|].
  destruct (MemFS.parent_error m p); [done|]. simpl.
  rewrite lookup_insert_ne; [done|]. congruence.
Qed.

Lemma mkdir_all_keeps (fuel : nat) (path q : string)
    (m : gmap string MemFS.node) (n : MemFS.node) :
  m !! q = Some n -> (MemFS.mkdir_all fuel path m).2 !! q = Some n.
Proof.
  revert path m. induction fuel as [|fuel IH]; intros path m Hq; simpl.
  - destruct (m !! path) as [[d|]|]; [done..|]. by apply Mkdir_keeps.
  - destruct (m !! path) as [[d|]|]; [done..|].
    destruct (MemFS.parent_prefix path) as [parent|];
      [|by apply Mkdir_keeps].
    specialize (IH parent m Hq).
    destruct (MemFS.mkdir_all fuel parent m) as [[e|] m1]; [done|].
    by apply Mkdir_keeps.
Qed.

#[export] Instance memfs_frame : @OSFrame MemFS.memfs.
Proof.
  split; simpl.
  - intros p q data perm st Hne. unfold MemFS.WriteFile, MemFS.ReadFile.
    destruct (MemFS.fs st !! p) as [[d|]|]; [|done|];
      (destruct (MemFS.parent_error (MemFS.fs st) p); [done|]; simpl;
       by rewrite lookup_insert_ne).
  - intros p q st Hne. unfold MemFS.Remove, MemFS.ReadFile.
    destruct (MemFS.fs st !! p) as [[d|]|]; [| |done].
    + simpl. by rewrite lookup_delete_ne.
    + destruct (MemFS.entries _ p); [|done]. simpl.
      by rewrite lookup_delete_ne.
  - intros d q perm st body. unfold MemFS.MkdirAll, MemFS.ReadFile.
    destruct (MemFS.fs st !! q) as [[data|]|] eqn:Hq; intros [= <-].
    pose proof (mkdir_all_keeps (String.length d) d q _ _ Hq) as Hk.
    destruct (MemFS.mkdir_all _ d _) as [e m]; simpl in *. by rewrite Hk.
Qed.

#[export] Instance memfs_stat_laws : @OSStatLaws MemFS.memfs memfs_stat.
Proof.
  split; simpl.
  - intros p st body. unfold MemFS.ReadFile, memfs_Stat.
    destruct (MemFS.fs st !! p) as [[d|]|]; intros [= <-]. by eexists.
  - intros p st body e. unfold MemFS.ReadFile, memfs_Stat.
    destruct (MemFS.fs st !! p) as [[d|]|]; intros [= <- <-]; [done|].
    intros _. by do 2 eexists.
Qed.


(** Creating [notes/new/page.md] on the sample machine makes the
    directory [notes/new] and leaves [notes/todo.md] as it was. *)
Lemma Create_keeps_other_pages_witness :
  let pg := Page.mk "/wiki/notes/todo.md" "notes/todo.md" "milk" "" in
  Local MemFS.wiki "notes/new/page.md" = ("/wiki/notes/new/page.md", None)
  /\ Local MemFS.wiki "notes/todo.md" = ("/wiki/notes/todo.md", None)
  /\ @GetPage MemFS.memfs MemFS.wiki "notes/todo.md" MemFS.sample
     = (pg, None)
  /\ @GetPage MemFS.memfs MemFS.wiki "notes/todo.md"
       (@Create MemFS.memfs MemFS.wiki "notes/new/page.md" MemFS.sample).2
     = (pg, None).
Proof.
  split; [by vm_compute|]. split; [by vm_compute|]. split; [by vm_compute|].
  apply (Create_keeps_other_pages (H0 := memfs_laws) MemFS.wiki
           "notes/new/page.md" "notes/todo.md" "/wiki/notes/new/page.md"
           "/wiki/notes/todo.md"); by vm_compute.
Defined.

(** ** A leading separator in the request path *)

Lemma list_ascii_of_string_app (a b : string) :
  list_ascii_of_string (a +:+ b)
  = list_ascii_of_string a ++ list_ascii_of_string b.
Proof. induction a as [|c a IH]; simpl; [done | by rewrite IH]. Qed.

Lemma at_boundary_app (l s1 s2 : list ascii) :
  filepath.at_boundary (l ++ "/"%char :: s1)
  = filepath.at_boundary (l ++ "/"%char :: s2).
Proof. by destruct l. Qed.

(** [Clean] reads two separators in a row as one. *)
Lemma clean_loop_double_separator (n : nat) :
  forall (l1 l2 : list ascii) (rooted : bool) (out : list ascii)
         (dotdot : nat) (mid : bool),
    length l1 <= n ->
    filepath.clean_loop rooted (l1 ++ "/"%char :: "/"%char :: l2) out dotdot mid
    = filepath.clean_loop rooted (l1 ++ "/"%char :: l2) out dotdot mid.
Proof.
  induction n as [n IH] using lt_wf_ind.
  intros l1 l2 rooted out dotdot mid Hn.
  destruct l1 as [|c l1].
  { simpl. by destruct mid. }
  rewrite <- !app_comm_cons. cbn [filepath.clean_loop].
  simpl in Hn.
  rewrite (at_boundary_app l1 ("/"%char :: l2) l2).
  rewrite !(IH (length l1)) by lia.
  destruct l1 as [|d l1]; [reflexivity|].
  rewrite <- !app_comm_cons.
  rewrite (at_boundary_app l1 ("/"%char :: l2) l2).
  simpl in Hn.
  rewrite !(IH (length l1)) by lia.
  reflexivity.
Qed.

Lemma Clean_double_separator (a b : string) :
  a <> "" ->
  filepath.Clean (a +:+ "/" +:+ "/" +:+ b) = filepath.Clean (a +:+ "/" +:+ b).
Proof.
  intros Ha. destruct a as [|c a]; [done|].
  unfold filepath.Clean. rewrite !list_ascii_of_string_app.
  change (list_ascii_of_string "/") with ["/"%char].
  cbn [list_ascii_of_string app].
  destruct (filepath.IsPathSeparator c).
  - by rewrite (clean_loop_double_separator (length (list_ascii_of_string a))).
  - rewrite !app_comm_cons.
    by rewrite (clean_loop_double_separator
                  (length (c :: list_ascii_of_string a))).
Qed.

Lemma Join_leading_separator (root path : string) :
  root <> "" ->
  filepath.Join [root; "/" +:+ path] = filepath.Join [root; path].
Proof.
  intros Hr. destruct root as [|c root]; [done|].
  unfold filepath.Join. cbn [strings.Join].
  by apply Clean_double_separator.
Qed.

(** X6. For a wiki whose root is not the empty string, a request path and
    the same path with a separator put in front are sanitized alike:
    the path [x] the mutating handlers pass on and the address [/x] of
    the page name the same file. *)
Theorem Local_leading_separator (w : Wiki.t) (path : string) :
  Wiki.Path w <> "" -> Local w ("/" +:+ path) = Local w path.
Proof.
  intros Hr. unfold Local. by rewrite Join_leading_separator.
Qed.

(** [notes/todo.md] with and without the separator in front. *)
Lemma Local_leading_separator_witness :
  Wiki.Path MemFS.wiki <> ""
  /\ Local MemFS.wiki "/notes/todo.md" = ("/wiki/notes/todo.md", None)
  /\ Local MemFS.wiki "notes/todo.md" = ("/wiki/notes/todo.md", None).
Proof.
  split; [done|].
  assert (Local MemFS.wiki "notes/todo.md" = ("/wiki/notes/todo.md", None))
    as Hl by (by vm_compute).
  split; [|exact Hl].
  rewrite <- Hl.
  apply (Local_leading_separator MemFS.wiki "notes/todo.md"). done.
Defined.

(** ** Splitting and joining on the separator *)

Lemma append_assoc (a b c : string) : (a +:+ b) +:+ c = a +:+ b +:+ c.
Proof.
  induction a as [|x a IH]; [done | exact (f_equal (String x) IH)].
Qed.

Lemma append_nil_r (a : string) : a +:+ "" = a.
Proof.
  induction a as [|x a IH]; [done | exact (f_equal (String x) IH)].
Qed.

Lemma string_of_list_ascii_app (l1 l2 : list ascii) :
  string_of_list_ascii (l1 ++ l2)
  = string_of_list_ascii l1 +:+ string_of_list_ascii l2.
Proof.
  induction l1 as [|x l1 IH]; [done | exact (f_equal (String x) IH)].
Qed.

Lemma HasPrefix_append (a b : string) : strings.HasPrefix (a +:+ b) a = true.
Proof.
  induction a as [|x a IH]; [done|].
  change (strings.HasPrefix (String x (a +:+ b)) (String x a) = true).
  simpl. by rewrite Ascii.eqb_refl.
Qed.

Lemma split_loop_nonempty (sep s : string) (skip : nat) (cur : list ascii) :
  strings.split_loop sep s skip cur <> [].
Proof.
  revert skip cur. induction s as [|d s IH]; intros skip cur; simpl; [done|].
  destruct skip; [|apply IH].
  destruct (strings.HasPrefix _ sep); [done | apply IH].
Qed.

Lemma Join_cons (e : string) (rest : list string) (sep : string) :
  rest <> [] -> strings.Join (e :: rest) sep = e +:+ sep +:+ strings.Join rest sep.
Proof. by destruct rest. Qed.

Lemma Join_app (a b : list string) (sep : string) :
  a <> [] -> b <> [] ->
  strings.Join (a ++ b) sep = strings.Join a sep +:+ sep +:+ strings.Join b sep.
Proof.
  intros Ha Hb. induction a as [|e a IH]; [done|].
  destruct a as [|e' a].
  - simpl app. by rewrite Join_cons.
  - rewrite <- app_comm_cons, !Join_cons by done.
    rewrite IH by done. by rewrite !append_assoc.
Qed.

(** Joining the pieces of [Split] on a one-byte separator gives the
    string back, and no piece holds the separator. *)
Lemma split_loop_Join (x : ascii) (s : string) (cur : list ascii) :
  strings.Join (strings.split_loop (String x "") s 0 cur) (String x "")
  = string_of_list_ascii (rev cur) +:+ s.
Proof.
  revert cur. induction s as [|c s IH]; intros cur.
  - simpl. by rewrite append_nil_r.
  - cbn [strings.split_loop strings.HasPrefix String.length Nat.sub].
    destruct (Ascii.eqb_spec x c) as [<- | Hne].
    + rewrite Join_cons by apply split_loop_nonempty.
      by rewrite IH.
    + rewrite IH. cbn [rev]. rewrite string_of_list_ascii_app.
      by rewrite append_assoc.
Qed.

Lemma elem_of_rev (x : ascii) (l : list ascii) : x ∈ rev l <-> x ∈ l.
Proof. rewrite !list_elem_of_In. symmetry. apply in_rev. Qed.

Lemma split_loop_pieces (x : ascii) (s : string) (cur : list ascii) :
  x ∉ cur ->
  Forall (fun piece => x ∉ list_ascii_of_string piece)
         (strings.split_loop (String x "") s 0 cur).
Proof.
  revert cur. induction s as [|c s IH]; intros cur Hcur.
  - simpl. constructor; [|done].
    rewrite list_ascii_of_string_of_list_ascii. by rewrite elem_of_rev.
  - cbn [strings.split_loop strings.HasPrefix String.length Nat.sub].
    destruct (Ascii.eqb_spec x c) as [<- | Hne].
    + constructor.
      * rewrite list_ascii_of_string_of_list_ascii. by rewrite elem_of_rev.
      * apply IH. apply not_elem_of_nil.
    + apply IH. rewrite not_elem_of_cons. done.
Qed.

Lemma Join_Split_separator (path : string) :
  strings.Join (strings.Split path "/") "/" = path.
Proof. unfold strings.Split. by rewrite split_loop_Join. Qed.

(** ** Where the crumbs link *)

Lemma Breadcrumbs_crumb (path : string) (c : Crumb.t) :
  c ∈ Breadcrumbs path ->
  c = Crumb.mk "home" "/"
  \/ (Crumb.Name c <> ""
      /\ ("/"%char ∉ list_ascii_of_string (Crumb.Name c))
      /\ strings.HasPrefix path (Crumb.URI c +:+ "/") = true
      /\ exists front, Crumb.URI c = front +:+ Crumb.Name c).
Proof.
  unfold Breadcrumbs. rewrite Breadcrumbs_loop.
  set (split := strings.Split path "/").
  intros [->%list_elem_of_singleton | Hc]%elem_of_app; [by left | right].
  apply list_elem_of_fmap in Hc as (ix & -> & [Hne Hix]%list_elem_of_filter).
  apply elem_of_seq in Hix as [_ Hix]. cbn [Crumb.Name Crumb.URI].
  assert (ix + 1 < length split) as Hlt by lia.
  assert (is_Some (split !! ix)) as [name Hname]
    by (apply lookup_lt_is_Some; lia).
  rewrite (nth_lookup_Some _ _ _ _ Hname) in *.
  split; [done|]. split; [|split].
  - pose proof (split_loop_pieces "/"%char path [] (not_elem_of_nil _)) as Hp.
    rewrite Forall_forall in Hp. apply Hp.
    by eapply list_elem_of_lookup_2.
  - rewrite <- (Join_Split_separator path) at 1. fold split.
    rewrite <- (take_drop (ix + 1) split) at 1.
    rewrite Join_app.
    + rewrite <- append_assoc. apply HasPrefix_append.
    + intros Ht%(f_equal length). rewrite length_take in Ht. simpl in Ht. lia.
    + intros Hd%(f_equal length). rewrite length_drop in Hd. simpl in Hd. lia.
  - replace (ix + 1) with (S ix) by lia.
    rewrite (take_S_r _ _ _ Hname).
    destruct (take ix split) as [|e l] eqn:Ht.
    + by exists "".
    + rewrite Join_app by done. simpl strings.Join at 2.
      exists (strings.Join (e :: l) "/" +:+ "/"). by rewrite append_assoc.
Qed.

(** X7. A crumb other than [home] stands for a segment of the path before
    the last: its name is that segment, not empty and free of
    separators, and its link is the part of the path up to the end of
    the segment, so that the link followed by a separator starts the
    path. *)
Theorem Breadcrumbs_links (path : string) (c : Crumb.t) :
  c ∈ Breadcrumbs path ->
  c = Crumb.mk "home" "/"
  \/ (Crumb.Name c <> ""
      /\ ("/"%char ∉ list_ascii_of_string (Crumb.Name c))
      /\ strings.HasPrefix path (Crumb.URI c +:+ "/") = true
      /\ exists front, Crumb.URI c = front +:+ Crumb.Name c).
Proof. apply Breadcrumbs_crumb. Qed.

(** The crumb [b] of [/a/b/c]. *)
Lemma Breadcrumbs_links_witness :
  let c := Crumb.mk "b" "/a/b" in
  c ∈ Breadcrumbs "/a/b/c"
  /\ strings.HasPrefix "/a/b/c" (Crumb.URI c +:+ "/") = true.
Proof.
  assert (Crumb.mk "b" "/a/b" ∈ Breadcrumbs "/a/b/c") as Hin.
  { rewrite list_elem_of_In. vm_compute. auto. }
  split; [exact Hin|].
  destruct (Breadcrumbs_links "/a/b/c" _ Hin) as [Hhome | (_ & _ & Hpre & _)];
    [discriminate Hhome | exact Hpre].
Defined.

(** ** The front end on top of the page store *)

Lemma Local_slash (w : Wiki.t) (path : string) :
  Wiki.Path w <> "" -> Local w ("/" +:+ path) = Local w path.
Proof. intros Hr. unfold Local. by rewrite Join_leading_separator. Qed.

Lemma slice_from_append (a b : string) :
  slice_from (a +:+ b) (String.length a) = Some b.
Proof. induction a as [|x a IH]; [by destruct b | exact IH]. Qed.

Lemma GetPage_ok `{OS} (w : Wiki.t) (path : string) (st : World)
    (pg : Page.t) :
  GetPage w path st = (pg, None) ->
  exists p body,
    Local w path = (p, None)
    /\ ioutil_ReadFile p st = (body, None)
    /\ pg = Page.mk p (filepath.Clean path) (string_of_list_byte body) "".
Proof.
  unfold GetPage.
  destruct (Local w path) as [p [e|]] eqn:Hl; [done|].
  destruct (ioutil_ReadFile p st) as [body [e|]] eqn:Hr; [done|].
  intros [= <-]. by exists p, body.
Qed.

Lemma Create_ok `{OSLaws} (w : Wiki.t) (path : string) (st st' : World) :
  Create w path st = (None, st') ->
  exists p, Local w path = (p, None)
            /\ ioutil_ReadFile p st'
               = (list_byte_of_string ("# " +:+ path), None).
Proof.
  unfold Create, bind, ret.
  destruct (Local w path) as [p [e|]] eqn:Hl; [done|].
  destruct (os_MkdirAll _ _ st) as [e0 st0].
  destruct (ioutil_WriteFile p _ _ st0) as [[e|] st1] eqn:Hw; [done|].
  intros Hc. exists p. split; [done|].
  apply Local_ok in Hl as (_ & _ & Hmeta).
  apply (f_equal snd) in Hc. simpl in Hc. subst st'.
  rewrite ReadFile_Commit by done. by eapply ReadFile_WriteFile.
Qed.

(** X8. The crumbs of a page that [GetPage] returned: each one other than
    [home] has a name and links to a part of the cleaned request path
    that ends before a separator. *)
Theorem CrumbsOf_GetPage `{OS} (w : Wiki.t) (path : string) (st : World)
    (pg : Page.t) (c : Crumb.t) :
  GetPage w path st = (pg, None) ->
  c ∈ CrumbsOf pg ->
  c = Crumb.mk "home" "/"
  \/ (Crumb.Name c <> ""
      /\ strings.HasPrefix (filepath.Clean path) (Crumb.URI c +:+ "/") = true).
Proof.
  intros (p & body & _ & _ & ->)%GetPage_ok. unfold CrumbsOf. simpl.
  intros [-> | (Hn & _ & Hp & _)]%Breadcrumbs_crumb; [by left | by right].
Qed.

(** The page [notes/todo.md] of the sample wiki has the crumbs [home]
    and [notes]. *)
Lemma CrumbsOf_GetPage_witness :
  let pg := (@GetPage MemFS.memfs MemFS.wiki "/notes/todo.md" MemFS.sample).1 in
  let c := Crumb.mk "notes" "/notes" in
  @GetPage MemFS.memfs MemFS.wiki "/notes/todo.md" MemFS.sample = (pg, None)
  /\ c ∈ CrumbsOf pg
  /\ strings.HasPrefix (filepath.Clean "/notes/todo.md") "/notes/" = true.
Proof.
  assert (Crumb.mk "notes" "/notes"
          ∈ CrumbsOf (@GetPage MemFS.memfs MemFS.wiki "/notes/todo.md"
                        MemFS.sample).1) as Hin.
  { rewrite list_elem_of_In. vm_compute. auto. }
  split; [by vm_compute|]. split; [exact Hin|].
  destruct (CrumbsOf_GetPage (H := MemFS.memfs) MemFS.wiki "/notes/todo.md"
              MemFS.sample _ _ ltac:(by vm_compute) Hin)
    as [Hhome | [_ Hpre]]; [discriminate Hhome | exact Hpre].
Defined.

Section ServerFacts.

Context `{OSLaws} `{!OSStat} `{!OSStatLaws} `{Renderer}.

(** [ShowPage] on a path that holds a readable file. *)
Lemma ShowPage_file (wiki : Wiki.t) (r : Request.t) (st : World)
    (p : string) (body : list byte) :
  Local wiki (Request.URL_Path r) = (p, None) ->
  ioutil_ReadFile p st = (body, None) ->
  ShowPage wiki r st
  = Executed "static/templates/show.html"
      (DataPage
         (ProcessMarkdown
            (Page.mk p (filepath.Clean (Request.URL_Path r))
                     (string_of_list_byte body) ""))).
Proof.
  intros Hl Hr. unfold ShowPage, GetPage. rewrite Hl.
  destruct (Stat_file p st body Hr) as (info & -> & ->).
  by rewrite Hr.
Qed.

(** X9. After [EditPage] has answered with a redirect, the page view at the
    address it redirects to and the edit form of the page both show
    the submitted text; the view carries its rendering, sanitized. *)
Theorem EditPage_then_ShowPage (wiki : Wiki.t) (r r' : Request.t)
    (st st' : World) (url : string) (code : N) :
  Wiki.Path wiki <> "" ->
  EditPage wiki r st = (Redirected url code, st') ->
  Request.URL_Path r' = url ->
  let text := Request.Form_Get r "new_contents" in
  (exists pg,
     ShowPage wiki r' st'
     = Executed "static/templates/show.html" (DataPage pg)
     /\ Page.Raw pg = text
     /\ Page.Body pg
        = string_of_list_byte
            (SanitizeBytes (MarkdownCommon (list_byte_of_string text))))
  /\ (forall path r'',
        url = "/" +:+ path ->
        Request.URL_Path r'' = "/edit/" +:+ path ->
        exists pg,
          ShowEdit wiki r'' st'
          = Executed "static/templates/edit.html" (DataPage pg)
          /\ Page.Raw pg = text /\ Page.Body pg = "").
Proof.
  intros Hroot. unfold EditPage, bind, ret.
  destruct (slice_from (Request.URL_Path r) _) as [path|]; [|done].
  destruct (Edit wiki path _ st) as [[e|] st1] eqn:He; [done|].
  intros [= <- <- <-] Hurl. cbv zeta.
  apply Edit_ok in He as (p & Hl & Hread).
  split.
  - eexists. split.
    + eapply ShowPage_file; [|done]. by rewrite Hurl, Local_slash.
    + simpl. by rewrite !string_of_list_byte_of_string.
  - intros path' r'' [= <-]%(inj (String.append "/")) Hr''.
    unfold ShowEdit, GetPage.
    rewrite Hr''. rewrite (slice_from_append "/edit/" path).
    rewrite Hl, Hread. eexists. split; [done|]. simpl.
    by rewrite string_of_list_byte_of_string.
Qed.

(** X10. After [CreatePage] has answered with a redirect to [/path], the page
    view at that address shows the placeholder ["# " + path]. *)
Theorem CreatePage_then_ShowPage (wiki : Wiki.t) (r r' : Request.t)
    (st st' : World) (url : string) (code : N) :
  Wiki.Path wiki <> "" ->
  CreatePage wiki r st = (Redirected url code, st') ->
  Request.URL_Path r' = url ->
  exists path pg,
    url = "/" +:+ path
    /\ ShowPage wiki r' st'
       = Executed "static/templates/show.html" (DataPage pg)
    /\ Page.Raw pg = "# " +:+ path.
Proof.
  intros Hroot. unfold CreatePage, bind, ret.
  destruct (slice_from (Request.URL_Path r) _) as [path|]; [|done].
  destruct (Create wiki path st) as [[e|] st1] eqn:Hc; [done|].
  intros [= <- <- <-] Hurl.
  apply Create_ok in Hc as (p & Hl & Hread).
  exists path. eexists. split; [done|]. split.
  - eapply ShowPage_file; [|done]. by rewrite Hurl, Local_slash.
  - simpl. by rewrite string_of_list_byte_of_string.
Qed.

(** X11. After [RemovePage] has answered with a redirect, which goes to the
    directory of the page, the address of the removed page shows the
    prompt to create it. *)
Theorem RemovePage_then_ShowPage (wiki : Wiki.t) (r r' : Request.t)
    (st st' : World) (path url : string) (code : N) :
  Wiki.Path wiki <> "" ->
  Request.URL_Path r = "/api/remove/" +:+ path ->
  RemovePage wiki r st = (Redirected url code, st') ->
  Request.URL_Path r' = "/" +:+ path ->
  url = filepath.Dir ("/" +:+ path)
  /\ code = StatusFound
  /\ ShowPage wiki r' st'
     = Executed "static/templates/create.html" (DataPath ("/" +:+ path)).
Proof.
  intros Hroot Hr. unfold RemovePage, bind, ret. rewrite Hr.
  rewrite (slice_from_append "/api/remove/" path).
  change ("/api/remove/" +:+ path) with ("/api/remove" +:+ "/" +:+ path).
  rewrite (slice_from_append "/api/remove" ("/" +:+ path)).
  destruct (Remove wiki path st) as [[e|] st1] eqn:Hrm; [done|].
  intros [= <- <- <-] Hr'.
  apply Remove_ok in Hrm as (p & e & Hl & Hread & Hne).
  split; [done|]. split; [done|].
  unfold ShowPage. rewrite Hr', Local_slash, Hl by done.
  by destruct (Stat_missing p st1 [] e Hread Hne) as (info & e' & ->).
Qed.

End ServerFacts.

(** X12. No handler answers a request whose path [Local] rejects, and the
    mutating handlers leave the machine as it was. *)
Theorem handlers_ignore_rejected_paths `{OSStat} `{Renderer}
    (wiki : Wiki.t) (r : Request.t) (st : World) :
  ((Local wiki (Request.URL_Path r)).2 <> None ->
   ShowPage wiki r st = NoResponse)
  /\ forall path,
      (Local wiki path).2 <> None ->
      (Request.URL_Path r = "/edit/" +:+ path ->
       ShowEdit wiki r st = NoResponse)
      /\ (Request.URL_Path r = "/api/remove/" +:+ path ->
          RemovePage wiki r st = (NoResponse, st))
      /\ (Request.URL_Path r = "/api/create/" +:+ path ->
          CreatePage wiki r st = (NoResponse, st))
      /\ (Request.URL_Path r = "/api/edit/" +:+ path ->
          EditPage wiki r st = (NoResponse, st)).
Proof.
  split.
  - unfold ShowPage. by destruct (Local wiki _) as [p [e|]].
  - intros path Hrej.
    destruct (Local wiki path) as [p [e|]] eqn:Hl; [|done].
    split; [|split; [|split]]; intros Hr.
    + unfold ShowEdit, GetPage. rewrite Hr.
      rewrite (slice_from_append "/edit/" path). by rewrite Hl.
    + unfold RemovePage, Remove, bind, ret. rewrite Hr.
      rewrite (slice_from_append "/api/remove/" path). by rewrite Hl.
    + unfold CreatePage, Create, bind, ret. rewrite Hr.
      rewrite (slice_from_append "/api/create/" path). by rewrite Hl.
    + unfold EditPage, Edit, bind, ret. rewrite Hr.
      rewrite (slice_from_append "/api/edit/" path). by rewrite Hl.
Qed.

(** X13. A handler panics only on a request path shorter than the prefix of
    its route: with the prefix in place none of the slice expressions
    is out of range, whatever follows. *)
Theorem handlers_do_not_panic `{OSStat} `{Renderer}
    (wiki : Wiki.t) (r : Request.t) (st : World) (path : string) :
  (Request.URL_Path r = "/edit/" +:+ path ->
   ShowEdit wiki r st <> Panicked)
  /\ (Request.URL_Path r = "/api/remove/" +:+ path ->
      (RemovePage wiki r st).1 <> Panicked)
  /\ (Request.URL_Path r = "/api/create/" +:+ path ->
      (CreatePage wiki r st).1 <> Panicked)
  /\ (Request.URL_Path r = "/api/edit/" +:+ path ->
      (EditPage wiki r st).1 <> Panicked)
  /\ (String.length (Request.URL_Path r) < String.length "/edit/" ->
      ShowEdit wiki r st = Panicked).
Proof.
  split; [|split; [|split; [|split]]].
  - intros Hr. unfold ShowEdit. rewrite Hr.
    rewrite (slice_from_append "/edit/" path).
    destruct (GetPage wiki path st) as [pg [e|]]; done.
  - intros Hr. unfold RemovePage, bind, ret. rewrite Hr.
    rewrite (slice_from_append "/api/remove/" path).
    change ("/api/remove/" +:+ path) with ("/api/remove" +:+ "/" +:+ path).
    rewrite (slice_from_append "/api/remove" ("/" +:+ path)).
    destruct (Remove wiki path st) as [[e|] st1]; done.
  - intros Hr. unfold CreatePage, bind, ret. rewrite Hr.
    rewrite (slice_from_append "/api/create/" path).
    destruct (Create wiki path st) as [[e|] st1]; done.
  - intros Hr. unfold EditPage, bind, ret. rewrite Hr.
    rewrite (slice_from_append "/api/edit/" path).
    destruct (Edit wiki path _ st) as [[e|] st1]; done.
  - intros Hlen. unfold ShowEdit.
    destruct (Request.URL_Path r) as [|c0 [|c1 [|c2 [|c3 [|c4 [|c5 s]]]]]];
      simpl in *; try done; lia.
Qed.

(** No entry of a listing that [GetDir] returns has a name starting
    with a dot. *)
Lemma GetDir_visible `{OS} (w : Wiki.t) (path : string) (st : World)
    (i : PageInfo.t) :
  i ∈ (GetDir w path st).1 ->
  strings.HasPrefix (PageInfo.Name i) "." = false
  /\ PageInfo.URI i = filepath.Join [path; PageInfo.Name i].
Proof.
  unfold GetDir.
  destruct (Local w path) as [p [e|]]; [by intros ?%elem_of_nil|].
  destruct (ioutil_ReadDir p st) as [files [e|]]; [by intros ?%elem_of_nil|].
  cbn [fst]. rewrite GetDir_loop. cbn [app].
  intros (f & -> & [Hvis _]%list_elem_of_filter)%list_elem_of_fmap.
  by split.
Qed.

(** X14. Whatever [ShowPage] hands to a template as a directory listing goes
    to the list template and names no entry starting with a dot, so
    the metadata directory is never listed. *)
Theorem ShowPage_listing_hides_dot_names `{OSStat} `{Renderer}
    (wiki : Wiki.t) (r : Request.t) (st : World) (template : string)
    (dir : list PageInfo.t) :
  ShowPage wiki r st = Executed template (DataDir dir) ->
  template = "static/templates/list.html"
  /\ forall i, i ∈ dir ->
       strings.HasPrefix (PageInfo.Name i) "." = false
       /\ PageInfo.Name i <> ".git"
       /\ PageInfo.URI i
          = filepath.Join [Request.URL_Path r; PageInfo.Name i].
Proof.
  unfold ShowPage.
  destruct (Local wiki _) as [p [e|]]; [done|].
  destruct (os_Stat p st) as [info [e|]]; [done|].
  destruct (os.IsDir info).
  - destruct (GetDir wiki _ st) as [dir' [e|]] eqn:Hd; [done|].
    intros [= <- <-]. split; [done|]. intros i Hi.
    destruct (GetDir_visible wiki (Request.URL_Path r) st i) as [Hvis Huri].
    { by rewrite Hd. }
    split; [done|]. split; [|done].
    intros Hgit. by rewrite Hgit in Hvis.
  - by destruct (GetPage wiki _ st) as [pg [e|]].
Qed.

(** The root of the sample wiki. *)
Lemma ShowPage_listing_hides_dot_names_witness :
  let r := Request.mk "/" ∅ in
  exists dir,
    ShowPage MemFS.wiki r MemFS.sample
    = Executed "static/templates/list.html" (DataDir dir)
    /\ map PageInfo.Name dir = ["about.md"; "home.md"; "notes"]
    /\ forall i, i ∈ dir -> PageInfo.Name i <> ".git".
Proof.
  eexists. split; [by vm_compute|]. split; [by vm_compute|].
  intros i Hi.
  eapply (ShowPage_listing_hides_dot_names (H := MemFS.memfs) MemFS.wiki
            (Request.mk "/" ∅) MemFS.sample); [|exact Hi].
  by vm_compute.
Defined.

(** Saving "eggs" to [notes/todo.md] on the sample machine, then
    viewing the page. *)
Lemma EditPage_then_ShowPage_witness :
  let r := Request.mk "/api/edit/notes/todo.md"
                      {["new_contents" := ["eggs"]]} in
  let r' := Request.mk "/notes/todo.md" ∅ in
  let st' := (@EditPage MemFS.memfs MemFS.wiki r MemFS.sample).2 in
  Wiki.Path MemFS.wiki <> ""
  /\ @EditPage MemFS.memfs MemFS.wiki r MemFS.sample
     = (Redirected "/notes/todo.md" StatusFound, st')
  /\ exists pg,
       ShowPage MemFS.wiki r' st'
       = Executed "static/templates/show.html" (DataPage pg)
       /\ Page.Raw pg = "eggs"
       /\ Page.Body pg = "<p>eggs</p>".
Proof.
  split; [done|]. split; [by vm_compute|].
  destruct (EditPage_then_ShowPage (H0 := memfs_laws) (H2 := memfs_stat_laws)
              MemFS.wiki
              (Request.mk "/api/edit/notes/todo.md"
                          {["new_contents" := ["eggs"]]})
              (Request.mk "/notes/todo.md" ∅)
              MemFS.sample _ "/notes/todo.md" StatusFound
              ltac:(done) ltac:(by vm_compute) eq_refl)
    as [(pg & Hshow & Hraw & Hbody) _].
  exists pg. split; [exact Hshow|]. split; [exact Hraw | exact Hbody].
Defined.

(** Creating [notes/new.md] on the sample machine, then viewing it. *)
Lemma CreatePage_then_ShowPage_witness :
  let r := Request.mk "/api/create/notes/new.md" ∅ in
  let r' := Request.mk "/notes/new.md" ∅ in
  let st' := (@CreatePage MemFS.memfs MemFS.wiki r MemFS.sample).2 in
  @CreatePage MemFS.memfs MemFS.wiki r MemFS.sample
  = (Redirected "/notes/new.md" StatusFound, st')
  /\ exists path pg,
       "/notes/new.md" = "/" +:+ path
       /\ ShowPage MemFS.wiki r' st'
          = Executed "static/templates/show.html" (DataPage pg)
       /\ Page.Raw pg = "# " +:+ path.
Proof.
  split; [by vm_compute|].
  apply (CreatePage_then_ShowPage (H0 := memfs_laws) (H2 := memfs_stat_laws)
           MemFS.wiki (Request.mk "/api/create/notes/new.md" ∅)
           (Request.mk "/notes/new.md" ∅) MemFS.sample _ "/notes/new.md"
           StatusFound);
    [done | by vm_compute | done].
Defined.

(** Removing [home.md] on the sample machine, then asking for it. *)
Lemma RemovePage_then_ShowPage_witness :
  let r := Request.mk "/api/remove/home.md" ∅ in
  let r' := Request.mk "/home.md" ∅ in
  let st' := (@RemovePage MemFS.memfs MemFS.wiki r MemFS.sample).2 in
  @RemovePage MemFS.memfs MemFS.wiki r MemFS.sample
  = (Redirected "/" StatusFound, st')
  /\ ShowPage MemFS.wiki r' st'
     = Executed "static/templates/create.html" (DataPath "/home.md").
Proof.
  split; [by vm_compute|].
  apply (RemovePage_then_ShowPage (H0 := memfs_laws) (H2 := memfs_stat_laws)
           MemFS.wiki (Request.mk "/api/remove/home.md" ∅)
           (Request.mk "/home.md" ∅) MemFS.sample _ "home.md" "/"
           StatusFound);
    [done | done | by vm_compute | done].
Defined.
